(** * Lunar lander descent simulator: the simulation and control core

    A shallow embedding of the [LunarLander] class of the moon-landing
    script (constructor, [updatePhysics], [setThrust]) and of the pilot
    input handler [askForThrust], followed by the properties of the
    simulation core.

    Numbers.  A JavaScript number is an IEEE-754 binary64 value.  A finite
    one is modelled by the rational [Q] it denotes, and every arithmetic
    operation of the [LunarLander] class is followed by the rounding it
    performs ([round64]: to nearest, ties to even, with gradual underflow),
    so the embedding computes the values the program computes; [parseFloat]
    rounds the numeral it reads.  Comparisons and [Math.max]/[Math.min] are
    exact on finite values.  A field of type [Q] can hold any rational;
    where a property depends on the field being a binary64 number, as every
    value of the program is, it says so ([isDouble]).  [NaN], the
    infinities, the sign of zero and overflow are outside the model of the
    lander; [parseFloat] alone can report an infinity.  Equality of
    numbers is [Qeq] ([==]); where the source assigns a literal
    ([this.fuel = 0]) the statements use Leibniz equality with it.  The
    first version of the game, kept for comparison, is written on the
    rationals without rounding.

    Time.  [Date.now()] is an integer number of milliseconds.  It is an
    input of the model: every operation that reads the clock takes the
    value read as the argument [now]. *)

From Stdlib Require Import ZArith QArith Qminmax Bool List Lia Lqa.
From Stdlib Require Import Qround Qabs Qpower Qreduction.
From Stdlib Require Import NArith Ascii String.
From Stdlib Require Import Floats.
Import ListNotations.

Local Open Scope Z_scope.
Local Open Scope Q_scope.

(** ** Comparisons of the source, as boolean tests *)

(** [a <= b] *)
Definition Qleb (a b : Q) : bool := Qle_bool a b.
(** [a > b] *)
Definition Qgtb (a b : Q) : bool := negb (Qle_bool a b).
(** [a < b] *)
Definition Qltb (a b : Q) : bool := negb (Qle_bool b a).

(** ** Binary64 arithmetic

    A finite binary64 number is [m * 2^e] with [|m| < 2^53] and
    [e >= -1074].  [round64] maps a rational to the nearest such number,
    ties to the even [m]. *)

Definition pow2 (e : Z) : Q := 2 ^ e.

(** For [x > 0], the exponent with [2^ilog2 <= x < 2^(ilog2 + 1)]. *)
Definition ilog2 (x : Q) : Z :=
  let l := (Z.log2 (Qnum x) - Z.log2 (Zpos (Qden x)))%Z in
  if Qle_bool (pow2 l) x then l else (l - 1)%Z.

(** The exponent of the unit in the last place of the binade of [x]; -1074
    in the subnormal range. *)
Definition expo (x : Q) : Z := Z.max (ilog2 (Qabs x) - 52) (-1074).

(** The nearest integer, ties to even. *)
Definition rne (y : Q) : Z :=
  let f := Qfloor y in
  match Qcompare (y - inject_Z f) (1 # 2) with
  | Lt => f
  | Gt => (f + 1)%Z
  | Eq => if Z.even f then f else (f + 1)%Z
  end.

Definition round64 (x : Q) : Q :=
  let x := Qred x in
  let e := expo x in
  Qred (inject_Z (rne (x / pow2 e)) * pow2 e).

Arguments round64 : simpl never.

(** The rationals that are binary64 numbers. *)
Definition isDouble (x : Q) : Prop := round64 x == x.

(** The operators [+], [-], [*] and [/] of the source. *)
Definition add64 (a b : Q) : Q := round64 (a + b).
Definition sub64 (a b : Q) : Q := round64 (a - b).
Definition mul64 (a b : Q) : Q := round64 (a * b).
Definition div64 (a b : Q) : Q := round64 (a / b).

Arguments add64 : simpl never.
Arguments sub64 : simpl never.
Arguments mul64 : simpl never.
Arguments div64 : simpl never.

(** The binary64 arithmetic of the kernel's primitive floats serves as a
    reference for [round64]: the rational a finite float denotes, and the
    float of an integer. *)
Definition Q_of_float (f : float) : Q :=
  let '(m, e) := PrimFloat.frshiftexp f in
  let mantissa := Uint63.to_Z (PrimFloat.normfr_mantissa (PrimFloat.abs m)) in
  let exponent := (Uint63.to_Z e - 2101 - 53)%Z in
  let v := inject_Z mantissa * pow2 exponent in
  Qred (if PrimFloat.ltb f 0 then - v else v).

Definition flt (z : Z) : float := PrimFloat.of_uint63 (Uint63.of_Z z).

(** ** Constants (lines 9-18)

    A decimal literal of the source denotes the binary64 number nearest to
    it. *)

Definition DEFAULT_INITIAL_ALTITUDE : Q := 1000.
Definition DEFAULT_INITIAL_VELOCITY : Q := 50.
Definition DEFAULT_INITIAL_FUEL : Q := 1200.
Definition DEFAULT_SAFE_LANDING_SPEED : Q := 5.

Definition GRAVITY : Q := round64 1.625.
Definition THRUST_POWER : Q := round64 0.15.
Definition FUEL_CONSUMPTION_RATE : Q := round64 0.1.
Definition SIMULATION_TICK_RATE_MS : Z := 1000.

(** ** The vehicle state: the fields of [class LunarLander] *)

Record LunarLander : Type := mkLunarLander {
  altitude : Q;
  velocity : Q;                (* positive means downward *)
  fuel : Q;
  safeLandingSpeed : Q;
  thrust : Q;                  (* percentage *)
  landed : bool;
  crashed : bool;
  outOfFuel : bool;
  lastUpdateTime : Z;          (* milliseconds *)
  impactVelocity : option Q    (* [None] is the source's [null] *)
}.

(** Field assignments [this.f = v]. *)

Definition set_altitude (v : Q) (l : LunarLander) : LunarLander :=
  mkLunarLander v (velocity l) (fuel l) (safeLandingSpeed l) (thrust l)
    (landed l) (crashed l) (outOfFuel l) (lastUpdateTime l) (impactVelocity l).

Definition set_velocity (v : Q) (l : LunarLander) : LunarLander :=
  mkLunarLander (altitude l) v (fuel l) (safeLandingSpeed l) (thrust l)
    (landed l) (crashed l) (outOfFuel l) (lastUpdateTime l) (impactVelocity l).

Definition set_fuel (v : Q) (l : LunarLander) : LunarLander :=
  mkLunarLander (altitude l) (velocity l) v (safeLandingSpeed l) (thrust l)
    (landed l) (crashed l) (outOfFuel l) (lastUpdateTime l) (impactVelocity l).

Definition set_thrust (v : Q) (l : LunarLander) : LunarLander :=
  mkLunarLander (altitude l) (velocity l) (fuel l) (safeLandingSpeed l) v
    (landed l) (crashed l) (outOfFuel l) (lastUpdateTime l) (impactVelocity l).

Definition set_landed (v : bool) (l : LunarLander) : LunarLander :=
  mkLunarLander (altitude l) (velocity l) (fuel l) (safeLandingSpeed l) (thrust l)
    v (crashed l) (outOfFuel l) (lastUpdateTime l) (impactVelocity l).

Definition set_crashed (v : bool) (l : LunarLander) : LunarLander :=
  mkLunarLander (altitude l) (velocity l) (fuel l) (safeLandingSpeed l) (thrust l)
    (landed l) v (outOfFuel l) (lastUpdateTime l) (impactVelocity l).

Definition set_outOfFuel (v : bool) (l : LunarLander) : LunarLander :=
  mkLunarLander (altitude l) (velocity l) (fuel l) (safeLandingSpeed l) (thrust l)
    (landed l) (crashed l) v (lastUpdateTime l) (impactVelocity l).

Definition set_lastUpdateTime (v : Z) (l : LunarLander) : LunarLander :=
  mkLunarLander (altitude l) (velocity l) (fuel l) (safeLandingSpeed l) (thrust l)
    (landed l) (crashed l) (outOfFuel l) v (impactVelocity l).

Definition set_impactVelocity (v : option Q) (l : LunarLander) : LunarLander :=
  mkLunarLander (altitude l) (velocity l) (fuel l) (safeLandingSpeed l) (thrust l)
    (landed l) (crashed l) (outOfFuel l) (lastUpdateTime l) v.

(** [constructor(initialAltitude, initialVelocity, initialFuel,
    safeLandingSpeed)], lines 35-46; [now] is the clock read at line 44. *)
Definition newLunarLander (now : Z)
    (initialAltitude initialVelocity initialFuel safeSpeed : Q) : LunarLander :=
  {| altitude := initialAltitude;
     velocity := initialVelocity;
     fuel := initialFuel;
     safeLandingSpeed := safeSpeed;
     thrust := 0;
     landed := false;
     crashed := false;
     outOfFuel := false;
     lastUpdateTime := now;
     impactVelocity := None |}.

(** The outcome of the data model, read off the two flags in the order in
    which [displayFinalReport] tests them (lines 218-233). *)
Inductive Outcome : Type := InFlight | Landed | Crashed.

Definition outcome (l : LunarLander) : Outcome :=
  if landed l then Landed else if crashed l then Crashed else InFlight.

(** ** [updatePhysics] (lines 49-97) *)

(** Seconds since the last update, line 55: the difference of two clock
    values, then the division by 1000. *)
Definition elapsed (now : Z) (l : LunarLander) : Q :=
  div64 (sub64 (inject_Z now) (inject_Z (lastUpdateTime l))) 1000.

(** Lines 59-74: thrust acceleration and fuel deduction.  The result is the
    local [thrustAccel] together with the updated lander. *)
Definition burnFuel (dt : Q) (l : LunarLander) : Q * LunarLander :=
  if Qgtb (fuel l) 0 then
    let thrustAccel := mul64 (thrust l) THRUST_POWER in
    let fuelConsumed := mul64 (mul64 (thrust l) FUEL_CONSUMPTION_RATE) dt in
    let l := set_fuel (sub64 (fuel l) fuelConsumed) l in
    if Qleb (fuel l) 0 then
      (thrustAccel, set_thrust 0 (set_outOfFuel true (set_fuel 0 l)))
    else (thrustAccel, l)
  else if negb (outOfFuel l) then
    (0, set_thrust 0 (set_outOfFuel true l))
  else (0, l).

(** Lines 76-80: net acceleration, velocity and altitude. *)
Definition integrate (thrustAccel dt : Q) (l : LunarLander) : LunarLander :=
  let netAccel := sub64 GRAVITY thrustAccel in
  let l := set_velocity (add64 (velocity l) (mul64 netAccel dt)) l in
  set_altitude (sub64 (altitude l) (mul64 (velocity l) dt)) l.

(** A field that may hold [null], read as a number: [null] converts to 0. *)
Definition toNumber (v : option Q) : Q :=
  match v with
  | Some q => q
  | None => 0
  end.

(** Lines 83-96: landing and crash check. *)
Definition touchdown (l : LunarLander) : LunarLander :=
  if Qleb (altitude l) 0 then
    let l := set_altitude 0 l in
    let l := set_impactVelocity (Some (velocity l)) l in
    let l :=
      if Qleb (toNumber (impactVelocity l)) (safeLandingSpeed l)
      then set_landed true l
      else set_crashed true l in
    let l := set_velocity 0 l in
    set_thrust 0 l
  else l.

(** Lines 58-80: the state at the landing check. *)
Definition flightStep (dt : Q) (l : LunarLander) : LunarLander :=
  let (thrustAccel, l) := burnFuel dt l in
  integrate thrustAccel dt l.

(** The body of [updatePhysics] once [dt] is known (lines 58-96). *)
Definition physicsStep (dt : Q) (l : LunarLander) : LunarLander :=
  touchdown (flightStep dt l).

Definition updatePhysics (now : Z) (l : LunarLander) : LunarLander :=
  if landed l || crashed l then l
  else
    let dt := elapsed now l in
    let l := set_lastUpdateTime now l in
    physicsStep dt l.

(** ** [setThrust] (lines 100-113) *)

Definition setThrust (newThrust : Q) (l : LunarLander) : LunarLander :=
  if landed l || crashed l then set_thrust 0 l
  else
    let clampedThrust := Qmax 0 (Qmin 100 newThrust) in
    let clampedThrust := if Qleb (fuel l) 0 then 0 else clampedThrust in
    set_thrust clampedThrust l.

(** A run of the timer: the clock values read by successive calls of
    [updatePhysics]. *)
Definition runTicks (nows : list Z) (l : LunarLander) : LunarLander :=
  fold_left (fun l now => updatePhysics now l) nows l.

(** Every call of the run sees a positive [dt]. *)
Fixpoint advancing (nows : list Z) (l : LunarLander) : Prop :=
  match nows with
  | [] => True
  | now :: rest => 0 < elapsed now l /\ advancing rest (updatePhysics now l)
  end.

(** ** Pilot input (lines 272-303)

    A JavaScript string is a sequence of UTF-16 code units.  [parseInt] and
    [String.prototype.trim] are built-ins; they are modelled after their
    ECMAScript definitions. *)

Definition jsstring : Type := list N.

Definition code_units (s : string) : jsstring :=
  map N_of_ascii (list_ascii_of_string s).

(** White space and line terminators, the characters removed by [trim] and
    skipped by [parseInt]. *)
Definition isWhiteSpace (c : N) : bool :=
  ((9 <=? c) && (c <=? 13) || (c =? 32) || (c =? 160) || (c =? 5760)
   || (8192 <=? c) && (c <=? 8202) || (c =? 8232) || (c =? 8233)
   || (c =? 8239) || (c =? 8287) || (c =? 12288) || (c =? 65279))%N.

Fixpoint trimStart (s : jsstring) : jsstring :=
  match s with
  | c :: rest => if isWhiteSpace c then trimStart rest else s
  | [] => []
  end.

Definition trimEnd (s : jsstring) : jsstring := rev (trimStart (rev s)).

Definition trim (s : jsstring) : jsstring := trimEnd (trimStart s).

(** The value of a code unit as a digit of the given radix. *)
Definition digitValue (radix : Z) (c : N) : option Z :=
  let v :=
    if ((48 <=? c) && (c <=? 57))%N then Some (Z.of_N c - 48)%Z
    else if ((97 <=? c) && (c <=? 122))%N then Some (Z.of_N c - 87)%Z
    else if ((65 <=? c) && (c <=? 90))%N then Some (Z.of_N c - 55)%Z
    else None in
  match v with
  | Some d => if (d <? radix)%Z then Some d else None
  | None => None
  end.

(** The value of the longest prefix of digits. *)
Fixpoint readDigits (radix acc : Z) (s : jsstring) : Z :=
  match s with
  | c :: rest =>
      match digitValue radix c with
      | Some d => readDigits radix (radix * acc + d)%Z rest
      | None => acc
      end
  | [] => acc
  end.

(** [parseInt(s, radix)]; the radix [None] is an omitted argument and the
    result [None] is [NaN]. *)
Definition parseInt (s : jsstring) (radix : option Z) : option Q :=
  let s := trimStart s in
  let '(sign, s) :=
    match s with
    | c :: rest =>
        if (c =? 45)%N then ((-1)%Z, rest)
        else if (c =? 43)%N then (1%Z, rest)
        else (1%Z, s)
    | [] => (1%Z, [])
    end in
  let '(R, stripPrefix) :=
    match radix with
    | None => (10%Z, true)
    | Some r => if (r =? 0)%Z then (10%Z, true) else (r, (r =? 16)%Z)
    end in
  if ((R <? 2) || (36 <? R))%Z then None
  else
    let '(R, s) :=
      match stripPrefix, s with
      | true, c0 :: c1 :: rest =>
          if ((c0 =? 48) && ((c1 =? 120) || (c1 =? 88)))%N then (16%Z, rest)
          else (R, s)
      | _, _ => (R, s)
      end in
    match s with
    | c :: _ =>
        match digitValue R c with
        | Some _ => Some (inject_Z (sign * readDigits R 0 s))
        | None => None
        end
    | [] => None
    end.

(** ANSI colour codes (lines 21-29) and the notice of line 286. *)
Definition ESC : string := String (ascii_of_nat 27) EmptyString.
Definition COLOR_RESET : string := ESC ++ "[0m".
Definition COLOR_RED : string := ESC ++ "[31m".

Definition invalidInputNotice : string :=
  COLOR_RED ++ "Invalid input. Please enter a number." ++ COLOR_RESET.

(** The part of [moonLanding]'s closure that the input handler reads and
    writes: the lander, the flag [gameRunning], whether the readline
    interface is closed, and the lines written with [console.log]. *)
Record Mission : Type := mkMission {
  lander : LunarLander;
  gameRunning : bool;
  rlClosed : bool;
  console : list string
}.

Definition set_lander (l : LunarLander) (m : Mission) : Mission :=
  mkMission l (gameRunning m) (rlClosed m) (console m).

Definition console_log (line : string) (m : Mission) : Mission :=
  mkMission (lander m) (gameRunning m) (rlClosed m) (console m ++ [line]).

(** The mission is flying while the handler's guard of lines 279 and 289
    lets input through. *)
Definition flying (m : Mission) : bool := gameRunning m && negb (rlClosed m).

(** Lines 279-287: what [askForThrust] does with one answer of
    [rl.question]. *)
Definition handleAnswer (answer : jsstring) (m : Mission) : Mission :=
  if negb (gameRunning m) || rlClosed m then m
  else
    let thrustInput := parseInt answer (Some 10%Z) in
    match thrustInput with
    | Some n => set_lander (setThrust n (lander m)) m   (* [!isNaN] *)
    | None =>
        match trim answer with
        | _ :: _ => console_log invalidInputNotice m
        | [] => m
        end
    end.

(** [askForThrust] (lines 272-291) asks again after every answer: the
    answers of a session are handled one after the other, as long as the
    guards of lines 273, 277 and 289 let the prompt through. *)
Fixpoint askForThrust (answers : list jsstring) (m : Mission) : Mission :=
  if negb (gameRunning m) then m
  else if rlClosed m then m
  else
    match answers with
    | [] => m
    | answer :: rest =>
        let m := handleAnswer answer m in
        if gameRunning m && negb (rlClosed m) then askForThrust rest m else m
    end.

(** ** States of a mission

    The landers a mission can hold: the constructor applied to parameters
    that passed [getNumericInput] (altitude and fuel not negative, lines
    148-151; safe speed positive, lines 152-155), then any interleaving of
    [setThrust], of [updatePhysics] with a clock that does not run
    backwards, and of the clock reset of line 309. *)
Inductive reachable : LunarLander -> Prop :=
  | reach_new (now : Z) (a v f s : Q) :
      0 <= a -> 0 <= f -> 0 < s -> reachable (newLunarLander now a v f s)
  | reach_setThrust (x : Q) (l : LunarLander) :
      reachable l -> reachable (setThrust x l)
  | reach_updatePhysics (now : Z) (l : LunarLander) :
      reachable l -> 0 <= elapsed now l -> reachable (updatePhysics now l)
  | reach_clock (now : Z) (l : LunarLander) :
      reachable l -> reachable (set_lastUpdateTime now l).

(** The invariants of the data model. *)
Record wellFormed (l : LunarLander) : Prop := mkWellFormed {
  wf_altitude : 0 <= altitude l;
  wf_fuel : 0 <= fuel l;
  wf_thrust : 0 <= thrust l /\ thrust l <= 100;
  wf_outOfFuel : outOfFuel l = true -> fuel l <= 0;
  wf_exclusive : landed l && crashed l = false
}.

(** ** The first version of the game (lines 350-451)

    The file also holds the earlier, turn-based script: fixed initial
    conditions, one physics step per prompt with no [dt], thrust power 0.1
    and a fixed landing limit.  It shares no code with the class above.
    Its arithmetic is written on the rationals, without rounding. *)
Module Legacy.

Record LunarLander : Type := mkLunarLander {
  altitude : Q;
  velocity : Q;
  fuel : Q;
  thrust : Q;
  gravity : Q;
  engineOn : bool
}.

Definition set_altitude (v : Q) (l : LunarLander) : LunarLander :=
  mkLunarLander v (velocity l) (fuel l) (thrust l) (gravity l) (engineOn l).

Definition set_velocity (v : Q) (l : LunarLander) : LunarLander :=
  mkLunarLander (altitude l) v (fuel l) (thrust l) (gravity l) (engineOn l).

Definition set_fuel (v : Q) (l : LunarLander) : LunarLander :=
  mkLunarLander (altitude l) (velocity l) v (thrust l) (gravity l) (engineOn l).

Definition set_thrust (v : Q) (l : LunarLander) : LunarLander :=
  mkLunarLander (altitude l) (velocity l) (fuel l) v (gravity l) (engineOn l).

(** Lines 351-358. *)
Definition newLunarLander : LunarLander :=
  {| altitude := 1000; velocity := 50; fuel := 1200; thrust := 0;
     gravity := 1.625; engineOn := false |}.

(** Lines 360-376. *)
Definition updatePhysics (l : LunarLander) : LunarLander :=
  let thrustAccel := (thrust l * 0.1) * (if Qgtb (fuel l) 0 then 1 else 0) in
  let netAccel := gravity l - thrustAccel in
  let l := set_velocity (velocity l + netAccel) l in
  let l := set_altitude (altitude l - velocity l) l in
  let l :=
    if Qgtb (fuel l) 0 then set_fuel (Qmax 0 (fuel l - thrust l * 0.1)) l
    else l in
  set_altitude (Qmax 0 (altitude l)) l.

(** Line 428.  [prompt] yields a string or [null]; [null] is read by
    [parseInt] as the string "null". *)
Definition parsedInput (input : option jsstring) : Q :=
  let text :=
    match input with
    | Some s => s
    | None => code_units "null"
    end in
  let parsed :=
    match parseInt text None with
    | Some v => if Qeq_bool v 0 then 0 else v
    | None => 0
    end in
  Qmin 100 (Qmax 0 parsed).

(** What one turn prints after the physics step, lines 434-446. *)
Inductive Message : Type :=
  | ContactLight
  | SuccessfulLanding
  | FuelRemaining (kg : Q)
  | CrashTooFast
  | FuelOut.

(** Lines 427-446, without the status display: the lander after the turn,
    the new value of [gameOver] and the messages printed. *)
Definition turn (input : option jsstring) (l : LunarLander)
    : LunarLander * bool * list Message :=
  let l := set_thrust (parsedInput input) l in
  let l := updatePhysics l in
  if Qleb (altitude l) 0 then
    if Qltb (velocity l) 5 then
      (l, true, [ContactLight; SuccessfulLanding; FuelRemaining (fuel l)])
    else (l, true, [ContactLight; CrashTooFast])
  else if Qleb (fuel l) 0 && Qgtb (thrust l) 0 then (l, false, [FuelOut])
  else (l, false, []).

End Legacy.

(** ** Mission parameter entry (lines 139-174)

    [parseFloat] can yield an infinity (the text "Infinity", or a numeral
    too large for binary64), so its result is a number of the extended
    kind.  A numeral too small for binary64 gives 0. *)

Inductive JSNumber : Type :=
  | Finite (q : Q)
  | PosInfinity
  | NegInfinity
  | NaN.

(** [v < 0] and [v <= 0] on a parsed number. *)
Definition ltZero (v : JSNumber) : bool :=
  match v with
  | Finite q => Qltb q 0
  | NegInfinity => true
  | PosInfinity | NaN => false
  end.

Definition leZero (v : JSNumber) : bool :=
  match v with
  | Finite q => Qleb q 0
  | NegInfinity => true
  | PosInfinity | NaN => false
  end.

Fixpoint startsWith (s prefix : jsstring) : bool :=
  match prefix, s with
  | [], _ => true
  | p :: prefix', c :: s' => (c =? p)%N && startsWith s' prefix'
  | _ :: _, [] => false
  end.

(** [s.includes(search)] *)
Fixpoint includes (s search : jsstring) : bool :=
  startsWith s search ||
  match s with
  | [] => false
  | _ :: s' => includes s' search
  end.

(** The longest prefix of decimal digits, and what follows it. *)
Fixpoint takeDigits (s : jsstring) : list Z * jsstring :=
  match s with
  | c :: rest =>
      match digitValue 10 c with
      | Some d => let (ds, tail) := takeDigits rest in (d :: ds, tail)
      | None => ([], s)
      end
  | [] => ([], [])
  end.

Definition digitsValue (ds : list Z) : Z :=
  fold_left (fun acc d => (10 * acc + d)%Z) ds 0%Z.

(** An optional sign: whether it is a minus, and the rest. *)
Definition takeSign (s : jsstring) : bool * jsstring :=
  match s with
  | c :: rest =>
      if (c =? 45)%N then (true, rest)
      else if (c =? 43)%N then (false, rest)
      else (false, s)
  | [] => (false, [])
  end.

(** The least magnitude that rounds to an infinity: half a unit in the
    last place above the largest binary64 number. *)
Definition overflowThreshold : Q := inject_Z (2 ^ 1024 - 2 ^ 970).

(** [parseFloat(s)]: the value of the longest prefix of the trimmed text
    that is a decimal literal (sign, "Infinity" or digits with an optional
    fraction and an optional complete exponent), rounded to binary64. *)
Definition parseFloat (s : jsstring) : JSNumber :=
  let s := trimStart s in
  let '(negative, s) := takeSign s in
  if startsWith s (code_units "Infinity") then
    if negative then NegInfinity else PosInfinity
  else
    let '(intDigits, s) := takeDigits s in
    let '(fracDigits, s) :=
      match s with
      | c :: rest => if (c =? 46)%N then takeDigits rest else ([], s)
      | [] => ([], [])
      end in
    match intDigits ++ fracDigits with
    | [] => NaN
    | digits =>
        let exponent :=
          match s with
          | c :: rest =>
              if ((c =? 101) || (c =? 69))%N then
                let '(expNegative, rest) := takeSign rest in
                let '(expDigits, _) := takeDigits rest in
                match expDigits with
                | [] => 0%Z
                | _ => if expNegative then (- digitsValue expDigits)%Z
                       else digitsValue expDigits
                end
              else 0%Z
          | [] => 0%Z
          end in
        let magnitude :=
          inject_Z (digitsValue digits)
          / inject_Z (10 ^ Z.of_nat (List.length fracDigits))
          * 10 ^ exponent in
        if Qle_bool overflowThreshold magnitude then
          if negative then NegInfinity else PosInfinity
        else Finite (round64 (if negative then - magnitude else magnitude))
    end.

(** What [getNumericInput] prints when it falls back to the default; the
    payload is the default value shown in the text. *)
Inductive SetupNotice : Type :=
  | InvalidInputUsingDefault (defaultValue : Q)
  | CannotBeNegativeUsingDefault (defaultValue : Q)
  | SafeSpeedMustBePositiveUsingDefault (defaultValue : Q).

(** [getNumericInput(rl, prompt, defaultValue)], given the answer of
    [rl.question]: the value returned and the notices printed. *)
Definition getNumericInput (answer prompt : jsstring) (defaultValue : Q)
    : JSNumber * list SetupNotice :=
  let value := parseFloat answer in
  let blank := match trim answer with [] => true | _ :: _ => false end in
  if (match value with NaN => true | _ => false end) || blank then
    (Finite defaultValue, [InvalidInputUsingDefault defaultValue])
  else if (includes prompt (code_units "Altitude")
           || includes prompt (code_units "Fuel")) && ltZero value then
    (Finite defaultValue, [CannotBeNegativeUsingDefault defaultValue])
  else if includes prompt (code_units "Safe Landing Speed") && leZero value then
    (Finite defaultValue, [SafeSpeedMustBePositiveUsingDefault defaultValue])
  else (value, []).

Record MissionParameters : Type := mkMissionParameters {
  paramAltitude : JSNumber;
  paramVelocity : JSNumber;
  paramFuel : JSNumber;
  paramSafeSpeed : JSNumber
}.

(** [getInitialParameters(rl)], given the four answers in the order they
    are asked for. *)
Definition getInitialParameters (answers : jsstring * jsstring * jsstring * jsstring)
    : MissionParameters * list SetupNotice :=
  let '(a1, a2, a3, a4) := answers in
  let (altitude, n1) :=
    getNumericInput a1 (code_units "Initial Altitude (m)")
      DEFAULT_INITIAL_ALTITUDE in
  let (velocity, n2) :=
    getNumericInput a2 (code_units "Initial Downward Velocity (m/s)")
      DEFAULT_INITIAL_VELOCITY in
  let (fuel, n3) :=
    getNumericInput a3 (code_units "Initial Fuel (kg)") DEFAULT_INITIAL_FUEL in
  let (safeSpeed, n4) :=
    getNumericInput a4 (code_units "Maximum Safe Landing Speed (m/s)")
      DEFAULT_SAFE_LANDING_SPEED in
  (mkMissionParameters altitude velocity fuel safeSpeed, n1 ++ n2 ++ n3 ++ n4).

(** Line 248 for parameters that are all finite; a lander with an infinite
    field is outside the model. *)
Definition missionLander (now : Z) (p : MissionParameters) : option LunarLander :=
  match paramAltitude p, paramVelocity p, paramFuel p, paramSafeSpeed p with
  | Finite a, Finite v, Finite f, Finite s => Some (newLunarLander now a v f s)
  | _, _, _, _ => None
  end.

(** ** The final report (lines 200-236)

    The report is kept as the data its text is formatted from. *)

Inductive Direction : Type := DOWN | UP | LEVEL.

(** Lines 117 and 206. *)
Definition directionOf (v : Q) : Direction :=
  if Qgtb v 0 then DOWN else if Qltb v 0 then UP else LEVEL.

Inductive Verdict : Type :=
  | SuccessfulLanding
  | CrashExceededLimit
  | EndedBeforeLanding.

Record Report : Type := mkReport {
  reportAltitude : Q;
  finalVelocity : Q;
  finalVelocityDirection : Direction;
  reportFuel : Q;
  reportFuelEmpty : bool;
  reportThrust : Q;
  reportLimit : Q;
  verdict : Verdict
}.

Definition displayFinalReport (l : LunarLander) (safeSpeed : Q) : Report :=
  let finalVelocity :=
    match impactVelocity l with
    | Some v => v
    | None => velocity l
    end in
  {| reportAltitude := altitude l;
     finalVelocity := finalVelocity;
     finalVelocityDirection := directionOf finalVelocity;
     reportFuel := fuel l;
     reportFuelEmpty := outOfFuel l;
     reportThrust := thrust l;
     reportLimit := safeSpeed;
     verdict :=
       if landed l then SuccessfulLanding
       else if crashed l then CrashExceededLimit
       else EndedBeforeLanding |}.

(** ** The simulation loop and the interrupt (lines 241-341)

    What the timer callback and the interrupt handler write to the
    terminal is recorded as events carrying the data that is displayed. *)

Inductive Display : Type :=
  | ScreenCleared
  | StatusShown (l : LunarLander)
  | FuelEmptyWarning
  | InterruptReceived
  | FinalReport (r : Report).

(** The closure of [moonLanding]: the mission, whether the interval timer
    is running, the mission's safe speed, what was displayed, and the exit
    code once [process.exit] was called. *)
Record Simulation : Type := mkSimulation {
  mission : Mission;
  intervalRunning : bool;
  safeSpeed : Q;
  screen : list Display;
  exitCode : option Z
}.

Definition set_gameRunning (b : bool) (m : Mission) : Mission :=
  mkMission (lander m) b (rlClosed m) (console m).

Definition set_rlClosed (b : bool) (m : Mission) : Mission :=
  mkMission (lander m) (gameRunning m) b (console m).

(** The sequence shared by the interrupt handler (lines 254-259) and the
    end of the timer callback (lines 330-334): stop, close the input,
    report, exit with code 0. *)
Definition stopAndReport (s : Simulation) : Simulation :=
  let m := set_gameRunning false (mission s) in
  let m := set_rlClosed true m in
  mkSimulation m false (safeSpeed s)
    (screen s ++ [FinalReport (displayFinalReport (lander m) (safeSpeed s))])
    (Some 0%Z).

(** [handleInterrupt], lines 251-260. *)
Definition handleInterrupt (s : Simulation) : Simulation :=
  if negb (gameRunning (mission s)) then s
  else
    let s := mkSimulation (mission s) (intervalRunning s) (safeSpeed s)
               (screen s ++ [InterruptReceived]) (exitCode s) in
    stopAndReport s.

(** The timer callback, lines 310-340; [now] is the clock read by
    [updatePhysics].  A stopped timer or an exited process runs nothing. *)
Definition onInterval (now : Z) (s : Simulation) : Simulation :=
  if negb (intervalRunning s) then s
  else
    match exitCode s with
    | Some _ => s
    | None =>
        if negb (gameRunning (mission s)) then
          mkSimulation (set_rlClosed true (mission s)) false (safeSpeed s)
            (screen s) (exitCode s)
        else
          let l := updatePhysics now (lander (mission s)) in
          let m := set_lander l (mission s) in
          let shown := screen s ++ [ScreenCleared; StatusShown l] in
          let shown :=
            if outOfFuel l && Qgtb (thrust l) 0
            then shown ++ [FuelEmptyWarning] else shown in
          let s := mkSimulation m (intervalRunning s) (safeSpeed s) shown
                     (exitCode s) in
          if landed l || crashed l then stopAndReport s else s
    end.

(** An answer of the pilot arriving in the simulation. *)
Definition onAnswer (answer : jsstring) (s : Simulation) : Simulation :=
  match exitCode s with
  | Some _ => s
  | None =>
      mkSimulation (handleAnswer answer (mission s)) (intervalRunning s)
        (safeSpeed s) (screen s) (exitCode s)
  end.

(** Lines 247-248 and 265-310: the simulation as the timer is started, for
    a lander built from the mission parameters; [now] is the clock read at
    line 309. *)
Definition startSimulation (now : Z) (l : LunarLander) : Simulation :=
  {| mission := mkMission (set_lastUpdateTime now l) true false [];
     intervalRunning := true;
     safeSpeed := safeLandingSpeed l;
     screen := [ScreenCleared; StatusShown l];
     exitCode := None |}.

(** What can happen to a running simulation. *)
Inductive Event : Type :=
  | Tick (now : Z)
  | Answer (answer : jsstring)
  | Interrupt.

Definition react (s : Simulation) (e : Event) : Simulation :=
  match e with
  | Tick now => onInterval now s
  | Answer answer => onAnswer answer s
  | Interrupt => handleInterrupt s
  end.

Definition simulate (events : list Event) (s : Simulation) : Simulation :=
  fold_left react events s.

(** The clock does not run backwards along the events. *)
Fixpoint clockOrdered (events : list Event) (s : Simulation) : Prop :=
  match events with
  | [] => True
  | e :: rest =>
      match e with
      | Tick now => (lastUpdateTime (lander (mission s)) <= now)%Z
      | _ => True
      end /\ clockOrdered rest (react s e)
  end.

(** A simulation is either running, with a lander in flight, or over, with
    exit code 0 and the final report as the last thing displayed. *)
Definition simulationState (s : Simulation) : Prop :=
  reachable (lander (mission s)) /\
  safeSpeed s = safeLandingSpeed (lander (mission s)) /\
  ~ In FuelEmptyWarning (screen s) /\
  match exitCode s with
  | None =>
      gameRunning (mission s) = true /\ rlClosed (mission s) = false /\
      intervalRunning s = true /\ outcome (lander (mission s)) = InFlight
  | Some code =>
      code = 0%Z /\
      gameRunning (mission s) = false /\ rlClosed (mission s) = true /\
      intervalRunning s = false /\
      exists earlier,
        screen s =
        earlier ++ [FinalReport (displayFinalReport (lander (mission s))
                                   (safeSpeed s))]
  end.

(** ** The loop of the first version (lines 424-447) *)
Module LegacyGame.

(** [while (!gameOver)] over the successive answers of [prompt]: the lander,
    the final [gameOver] and everything printed. *)
Fixpoint moonLanding (inputs : list (option jsstring)) (l : Legacy.LunarLander)
    : Legacy.LunarLander * bool * list Legacy.Message :=
  match inputs with
  | [] => (l, false, [])
  | input :: rest =>
      let '(l, gameOver, printed) := Legacy.turn input l in
      if gameOver then (l, true, printed)
      else
        let '(l, gameOver, later) := moonLanding rest l in
        (l, gameOver, printed ++ later)
  end.

End LegacyGame.

(** * Properties *)

(** ** Reading the boolean tests *)

Lemma Qleb_true (a b : Q) : Qleb a b = true <-> a <= b.
Proof. apply Qle_bool_iff. Qed.

Lemma Qleb_false (a b : Q) : Qleb a b = false <-> b < a.
Proof.
  unfold Qleb. split; intro H.
  - apply Qnot_le_lt. intro Hle. apply Qle_bool_iff in Hle. congruence.
  - destruct (Qle_bool a b) eqn:E; [|reflexivity].
    apply Qle_bool_iff in E. exfalso. apply (Qlt_not_le _ _ H E).
Qed.

Lemma Qgtb_true (a b : Q) : Qgtb a b = true <-> b < a.
Proof.
  unfold Qgtb. rewrite negb_true_iff. apply Qleb_false.
Qed.

Lemma Qgtb_false (a b : Q) : Qgtb a b = false <-> a <= b.
Proof.
  unfold Qgtb. rewrite negb_false_iff. apply Qleb_true.
Qed.

Ltac qtests :=
  repeat match goal with
  | H : Qleb _ _ = true |- _ => apply Qleb_true in H
  | H : Qleb _ _ = false |- _ => apply Qleb_false in H
  | H : Qgtb _ _ = true |- _ => apply Qgtb_true in H
  | H : Qgtb _ _ = false |- _ => apply Qgtb_false in H
  end.

(** ** Rounding to binary64 *)

Lemma pow2_pos (e : Z) : 0 < pow2 e.
Proof. apply Qpower_0_lt. reflexivity. Qed.

Lemma pow2_add (a b : Z) : pow2 (a + b) == pow2 a * pow2 b.
Proof. apply Qpower_plus. discriminate. Qed.

Lemma pow2_le (a b : Z) : (a <= b)%Z -> pow2 a <= pow2 b.
Proof. intros H. apply Qpower_le_compat_l; [assumption | discriminate]. Qed.

Lemma pow2_Z (k : Z) : (0 <= k)%Z -> pow2 k == inject_Z (2 ^ k).
Proof. intros H. symmetry. now apply Zpower_Qpower. Qed.

Lemma div_pow2 (x : Q) (e : Z) : x / pow2 e * pow2 e == x.
Proof. field. intros H. pose proof (pow2_pos e). lra. Qed.

Lemma ilog2_spec (x : Q) :
  0 < x -> pow2 (ilog2 x) <= x /\ x < pow2 (ilog2 x + 1).
Proof.
  intros Hx. destruct x as [n d].
  assert (Hn : (0 < n)%Z) by (unfold Qlt in Hx; simpl in Hx; lia).
  unfold ilog2. simpl Qnum. simpl Qden.
  set (a := Z.log2 n). set (b := Z.log2 (Z.pos d)).
  destruct (Z.log2_spec n Hn) as [Ha1 Ha2]. fold a in Ha1, Ha2.
  destruct (Z.log2_spec (Z.pos d) ltac:(lia)) as [Hb1 Hb2]. fold b in Hb1, Hb2.
  assert (Ha0 : (0 <= a)%Z) by apply Z.log2_nonneg.
  assert (Hb0 : (0 <= b)%Z) by apply Z.log2_nonneg.
  assert (Hd : 0 < inject_Z (Z.pos d)) by reflexivity.
  assert (Ex : n # d == inject_Z n / inject_Z (Z.pos d)) by apply Qmake_Qdiv.
  assert (Ha1' : pow2 a <= inject_Z n)
    by (rewrite pow2_Z by lia; now rewrite <- Zle_Qle).
  assert (Ha2' : inject_Z n < pow2 (Z.succ a))
    by (rewrite pow2_Z by lia; now rewrite <- Zlt_Qlt).
  assert (Hb1' : pow2 b <= inject_Z (Z.pos d))
    by (rewrite pow2_Z by lia; now rewrite <- Zle_Qle).
  assert (Hb2' : inject_Z (Z.pos d) < pow2 (Z.succ b))
    by (rewrite pow2_Z by lia; now rewrite <- Zlt_Qlt).
  assert (Hup : n # d < pow2 (a - b + 1)).
  { rewrite Ex. apply Qlt_shift_div_r; [assumption|].
    apply Qlt_le_trans with (pow2 (Z.succ a)); [assumption|].
    replace (Z.succ a) with ((a - b + 1) + b)%Z by lia. rewrite pow2_add.
    apply Qmult_le_l; [apply pow2_pos | assumption]. }
  assert (Hlow : pow2 (a - b - 1) <= n # d).
  { rewrite Ex. apply Qle_shift_div_l; [assumption|].
    apply Qle_trans with (pow2 a); [|assumption].
    replace a with ((a - b - 1) + Z.succ b)%Z at 2 by lia. rewrite pow2_add.
    apply Qmult_le_l; [apply pow2_pos | lra]. }
  destruct (Qle_bool (pow2 (a - b)) (n # d)) eqn:E.
  - apply Qle_bool_iff in E. split; assumption.
  - assert (Hlt : n # d < pow2 (a - b)).
    { apply Qnot_le_lt. intros H. apply Qle_bool_iff in H. congruence. }
    replace (a - b - 1 + 1)%Z with (a - b)%Z by lia. split; assumption.
Qed.

Lemma expo_min (x : Q) : (-1074 <= expo x)%Z.
Proof. apply Z.le_max_r. Qed.

Lemma expo_upper (x : Q) : Qabs x < pow2 (expo x + 53).
Proof.
  destruct (Qlt_le_dec 0 (Qabs x)) as [H | H].
  - destruct (ilog2_spec (Qabs x) H) as [_ Hu].
    apply Qlt_le_trans with (1 := Hu). apply pow2_le. unfold expo. lia.
  - apply Qle_lt_trans with (1 := H). apply pow2_pos.
Qed.

Lemma expo_lower (x : Q) :
  ~ x == 0 -> (-1074 < expo x)%Z -> pow2 (expo x + 52) <= Qabs x.
Proof.
  intros Hx He.
  assert (H : 0 < Qabs x).
  { destruct (Qlt_le_dec 0 (Qabs x)) as [H | H]; [assumption|].
    exfalso. apply Hx. pose proof (Qabs_nonneg x).
    destruct (proj1 (Qabs_Qle_condition x 0) H) as [H1 H2]. lra. }
  destruct (ilog2_spec (Qabs x) H) as [Hl _].
  replace (expo x + 52)%Z with (ilog2 (Qabs x)); [assumption|].
  unfold expo in *. lia.
Qed.

Lemma rne_le_int (y : Q) (N : Z) : y <= inject_Z N -> (rne y <= N)%Z.
Proof.
  intros H. unfold rne. set (f := Qfloor y).
  pose proof (Qfloor_le y) as Hf. fold f in Hf.
  assert (HfN : (f <= N)%Z) by (rewrite Zle_Qle; lra).
  assert (Hstep : inject_Z f < y -> (f + 1 <= N)%Z).
  { intros Hlt. assert (f < N)%Z by (rewrite Zlt_Qlt; lra). lia. }
  destruct (Qcompare_spec (y - inject_Z f) (1 # 2)) as [E | E | E].
  - destruct (Z.even f); [assumption|]. apply Hstep. lra.
  - assumption.
  - apply Hstep. lra.
Qed.

Lemma rne_ge_int (y : Q) (N : Z) : inject_Z N <= y -> (N <= rne y)%Z.
Proof.
  intros H. unfold rne. set (f := Qfloor y).
  pose proof (Qlt_floor y) as Hf. fold f in Hf.
  assert (HfN : (N <= f)%Z).
  { assert (N < f + 1)%Z by (rewrite Zlt_Qlt; lra). lia. }
  destruct (Qcompare (y - inject_Z f) (1 # 2)); [destruct (Z.even f)| |]; lia.
Qed.

(** The value computed by [round64], before reduction. *)
Lemma round64_value (x : Q) :
  round64 x ==
  inject_Z (rne (Qred x / pow2 (expo (Qred x)))) * pow2 (expo (Qred x)).
Proof. unfold round64. apply Qred_correct. Qed.

Section Rounding.

Variables (x d : Q) (m k : Z).
Hypothesis k_min : (-1074 <= k)%Z.
Hypothesis m_max : (Z.abs m <= 2 ^ 53)%Z.
Hypothesis d_value : d == inject_Z m * pow2 k.

Lemma d_bound : Qabs d <= pow2 (k + 53).
Proof.
  rewrite d_value, Qabs_Qmult, (Qabs_pos (pow2 k)) by (apply Qlt_le_weak, pow2_pos).
  rewrite Z.add_comm, pow2_add, (pow2_Z 53) by lia.
  apply Qmult_le_r; [apply pow2_pos|].
  change (Qabs (inject_Z m)) with (inject_Z (Z.abs m)).
  rewrite <- Zle_Qle. exact m_max.
Qed.

Lemma d_scaled (e : Z) :
  (e <= k)%Z -> d / pow2 e == inject_Z (m * 2 ^ (k - e)).
Proof.
  intros H. rewrite d_value, inject_Z_mult, <- pow2_Z by lia.
  replace k with ((k - e) + e)%Z at 1 by lia. rewrite pow2_add.
  field. pose proof (pow2_pos e). lra.
Qed.

Lemma scale_le (e : Z) (a b : Q) : a <= b -> a / pow2 e <= b / pow2 e.
Proof.
  intros H. apply Qmult_le_r; [apply Qinv_lt_0_compat, pow2_pos | assumption].
Qed.

Lemma unscale_le (e a b : Z) :
  (a <= b)%Z -> inject_Z a * pow2 e <= inject_Z b * pow2 e.
Proof.
  intros H. apply Qmult_le_r; [apply pow2_pos|]. now rewrite <- Zle_Qle.
Qed.

Lemma roundAt_le :
  x <= d -> inject_Z (rne (x / pow2 (expo x))) * pow2 (expo x) <= d.
Proof.
  intros Hxd. set (e := expo x). set (y := x / pow2 e).
  destruct (Z_le_gt_dec e k) as [Hek | Hek].
  - (* d is a multiple of the unit of x *)
    pose proof (d_scaled e Hek) as Hd.
    apply Qle_trans with (inject_Z (m * 2 ^ (k - e)) * pow2 e).
    + apply unscale_le, rne_le_int. rewrite <- Hd. now apply scale_le.
    + rewrite <- Hd, div_pow2. lra.
  - (* x is at least a binade above d in magnitude *)
    destruct (Qeq_dec x 0) as [Hx0 | Hx0].
    { assert (Hy : y <= inject_Z 0).
      { unfold y. rewrite Hx0. unfold Qdiv. rewrite Qmult_0_l. compute. discriminate. }
      apply Qle_trans with (inject_Z 0 * pow2 e).
      - apply unscale_le, rne_le_int, Hy.
      - rewrite Qmult_0_l. lra. }
    assert (He : (-1074 < e)%Z) by lia.
    pose proof (expo_lower x Hx0 He) as Hlow. fold e in Hlow.
    pose proof d_bound as Hdb.
    assert (Hpk : pow2 (k + 53) <= pow2 (e + 52)) by (apply pow2_le; lia).
    assert (Hunit : pow2 (e + 52) == inject_Z (2 ^ 52) * pow2 e).
    { rewrite Z.add_comm, pow2_add, (pow2_Z 52) by lia. reflexivity. }
    destruct (Qlt_le_dec x 0) as [Hneg | Hpos].
    + rewrite Qabs_neg in Hlow by lra.
      assert (Hy : y <= inject_Z (- 2 ^ 52)).
      { unfold y. apply Qle_shift_div_r; [apply pow2_pos|].
        rewrite inject_Z_opp. lra. }
      apply Qle_trans with (inject_Z (- 2 ^ 52) * pow2 e).
      * apply unscale_le, rne_le_int, Hy.
      * rewrite inject_Z_opp.
        assert (- Qabs d <= d).
        { apply (proj1 (Qabs_Qle_condition d (Qabs d))). lra. }
        lra.
    + rewrite Qabs_pos in Hlow by assumption.
      pose proof (Qle_Qabs d).
      assert (Hy : y <= inject_Z (2 ^ 52)).
      { unfold y. apply Qle_shift_div_r; [apply pow2_pos|]. lra. }
      apply Qle_trans with (inject_Z (2 ^ 52) * pow2 e).
      * apply unscale_le, rne_le_int, Hy.
      * lra.
Qed.

Lemma roundAt_ge :
  d <= x -> d <= inject_Z (rne (x / pow2 (expo x))) * pow2 (expo x).
Proof.
  intros Hxd. set (e := expo x). set (y := x / pow2 e).
  destruct (Z_le_gt_dec e k) as [Hek | Hek].
  - pose proof (d_scaled e Hek) as Hd.
    apply Qle_trans with (inject_Z (m * 2 ^ (k - e)) * pow2 e).
    + rewrite <- Hd, div_pow2. lra.
    + apply unscale_le, rne_ge_int. rewrite <- Hd. now apply scale_le.
  - destruct (Qeq_dec x 0) as [Hx0 | Hx0].
    { assert (Hy : inject_Z 0 <= y).
      { unfold y. rewrite Hx0. unfold Qdiv. rewrite Qmult_0_l. compute. discriminate. }
      apply Qle_trans with (inject_Z 0 * pow2 e).
      - rewrite Qmult_0_l. lra.
      - apply unscale_le, rne_ge_int, Hy. }
    assert (He : (-1074 < e)%Z) by lia.
    pose proof (expo_lower x Hx0 He) as Hlow. fold e in Hlow.
    pose proof d_bound as Hdb.
    assert (Hpk : pow2 (k + 53) <= pow2 (e + 52)) by (apply pow2_le; lia).
    assert (Hunit : pow2 (e + 52) == inject_Z (2 ^ 52) * pow2 e).
    { rewrite Z.add_comm, pow2_add, (pow2_Z 52) by lia. reflexivity. }
    destruct (Qlt_le_dec 0 x) as [Hpos | Hneg].
    + rewrite Qabs_pos in Hlow by lra.
      pose proof (Qle_Qabs d).
      assert (Hy : inject_Z (2 ^ 52) <= y).
      { unfold y. apply Qle_shift_div_l; [apply pow2_pos|]. lra. }
      apply Qle_trans with (inject_Z (2 ^ 52) * pow2 e).
      * lra.
      * apply unscale_le, rne_ge_int, Hy.
    + rewrite Qabs_neg in Hlow by assumption.
      assert (- Qabs d <= d).
      { apply (proj1 (Qabs_Qle_condition d (Qabs d))). lra. }
      assert (Hy : inject_Z (- 2 ^ 52) <= y).
      { unfold y. apply Qle_shift_div_l; [apply pow2_pos|].
        rewrite inject_Z_opp. lra. }
      apply Qle_trans with (inject_Z (- 2 ^ 52) * pow2 e).
      * rewrite inject_Z_opp. lra.
      * apply unscale_le, rne_ge_int, Hy.
Qed.

End Rounding.

Lemma round64_repr (x : Q) :
  exists m k, (-1074 <= k)%Z /\ (Z.abs m <= 2 ^ 53)%Z /\
              round64 x == inject_Z m * pow2 k.
Proof.
  set (x' := Qred x). set (e := expo x').
  exists (rne (x' / pow2 e)), e. split; [apply expo_min|]. split.
  - pose proof (expo_upper x') as Hu. fold e in Hu.
    assert (Hunit : pow2 (e + 53) == inject_Z (2 ^ 53) * pow2 e).
    { rewrite Z.add_comm, pow2_add, (pow2_Z 53) by lia. reflexivity. }
    assert (Hb : - pow2 (e + 53) <= x' /\ x' <= pow2 (e + 53)).
    { apply Qabs_Qle_condition. lra. }
    apply Z.abs_le. split.
    + apply rne_ge_int. apply Qle_shift_div_l; [apply pow2_pos|].
      rewrite inject_Z_opp. lra.
    + apply rne_le_int. apply Qle_shift_div_r; [apply pow2_pos|]. lra.
  - apply round64_value.
Qed.

Lemma round64_le_repr (x d : Q) (m k : Z) :
  (-1074 <= k)%Z -> (Z.abs m <= 2 ^ 53)%Z -> d == inject_Z m * pow2 k ->
  x <= d -> round64 x <= d.
Proof.
  intros Hk Hm Hd Hx. rewrite round64_value.
  apply (roundAt_le (Qred x) d m k Hk Hm Hd). now rewrite Qred_correct.
Qed.

Lemma round64_ge_repr (x d : Q) (m k : Z) :
  (-1074 <= k)%Z -> (Z.abs m <= 2 ^ 53)%Z -> d == inject_Z m * pow2 k ->
  d <= x -> d <= round64 x.
Proof.
  intros Hk Hm Hd Hx. rewrite round64_value.
  apply (roundAt_ge (Qred x) d m k Hk Hm Hd). now rewrite Qred_correct.
Qed.

Lemma round64_le (x d : Q) : isDouble d -> x <= d -> round64 x <= d.
Proof.
  intros Hd Hx. destruct (round64_repr d) as (m & k & Hk & Hm & E).
  unfold isDouble in Hd. rewrite Hd in E. now apply (round64_le_repr x d m k).
Qed.

Lemma round64_ge (x d : Q) : isDouble d -> d <= x -> d <= round64 x.
Proof.
  intros Hd Hx. destruct (round64_repr d) as (m & k & Hk & Hm & E).
  unfold isDouble in Hd. rewrite Hd in E. now apply (round64_ge_repr x d m k).
Qed.

Lemma isDouble_round64 (x : Q) : isDouble (round64 x).
Proof.
  unfold isDouble. destruct (round64_repr x) as (m & k & Hk & Hm & E).
  apply Qle_antisym.
  - apply (round64_le_repr _ _ m k Hk Hm E). lra.
  - apply (round64_ge_repr _ _ m k Hk Hm E). lra.
Qed.

Lemma round64_proper (a b : Q) : a == b -> round64 a = round64 b.
Proof. intros H. unfold round64. now rewrite (Qred_complete a b H). Qed.

Lemma isDouble_0 : isDouble 0.
Proof. vm_compute. reflexivity. Qed.

Lemma round64_nonneg (x : Q) : 0 <= x -> 0 <= round64 x.
Proof. apply round64_ge, isDouble_0. Qed.

Lemma round64_nonpos (x : Q) : x <= 0 -> round64 x <= 0.
Proof. apply round64_le, isDouble_0. Qed.

Lemma round64_zero (x : Q) : x == 0 -> round64 x == 0.
Proof.
  intros H. apply Qle_antisym;
    [apply round64_nonpos | apply round64_nonneg]; rewrite H; apply Qle_refl.
Qed.

(** Known binary64 values.  0.1 is 0x1.999999999999ap-4 and 0.15 is
    0x1.3333333333333p-3; 1.625 is a binary64 number; above 2^53 the
    spacing is 2 and a tie goes to the even mantissa; below the normal
    range the spacing stays 2^-1074, half of which rounds to 0; and
    0.1 + 0.2 is one unit in the last place above 0.3. *)
Lemma round64_examples :
  round64 0.1 = 3602879701896397 # 36028797018963968 /\
  round64 0.15 = 5404319552844595 # 36028797018963968 /\
  round64 1.625 = 13 # 8 /\
  round64 (inject_Z (2 ^ 53 + 1)) = inject_Z (2 ^ 53) /\
  round64 (inject_Z (2 ^ 53 + 3)) = inject_Z (2 ^ 53 + 4) /\
  round64 (pow2 (-1075)) = 0 /\
  round64 (3 * pow2 (-1075)) == pow2 (-1073) /\
  add64 (round64 0.1) (round64 0.2) == round64 0.3 + pow2 (-54).
Proof. vm_compute. repeat apply conj; reflexivity. Qed.

(** ** Outcomes *)

Lemma outcome_InFlight (l : LunarLander) :
  outcome l = InFlight <-> landed l || crashed l = false.
Proof.
  unfold outcome. destruct (landed l), (crashed l); simpl; split; congruence.
Qed.

Lemma outcome_terminal (l : LunarLander) :
  outcome l <> InFlight <-> landed l || crashed l = true.
Proof.
  unfold outcome. destruct (landed l), (crashed l); simpl; split; congruence.
Qed.

(** ** The three blocks of [updatePhysics] *)

(** Reads the fields of a lander built by the setters. *)
Ltac fields :=
  cbn beta iota zeta delta
    [fst snd
     altitude velocity fuel thrust safeLandingSpeed landed crashed outOfFuel
     lastUpdateTime impactVelocity
     set_altitude set_velocity set_fuel set_thrust set_landed set_crashed
     set_outOfFuel set_lastUpdateTime set_impactVelocity].

Section Blocks.

Variables (dt : Q) (l : LunarLander).

Lemma burnFuel_thrustAccel :
  fst (burnFuel dt l) =
  if Qgtb (fuel l) 0 then mul64 (thrust l) THRUST_POWER else 0.
Proof.
  unfold burnFuel. destruct (Qgtb (fuel l) 0); fields.
  - destruct (Qleb _ 0); reflexivity.
  - destruct (negb (outOfFuel l)); reflexivity.
Qed.

(** The fuel block touches [fuel], [outOfFuel] and [thrust] only. *)
Lemma burnFuel_frame :
  let l' := snd (burnFuel dt l) in
  altitude l' = altitude l /\ velocity l' = velocity l /\
  safeLandingSpeed l' = safeLandingSpeed l /\
  landed l' = landed l /\ crashed l' = crashed l /\
  lastUpdateTime l' = lastUpdateTime l /\
  impactVelocity l' = impactVelocity l.
Proof.
  unfold burnFuel. destruct (Qgtb (fuel l) 0); fields.
  - destruct (Qleb _ 0); fields; repeat split.
  - destruct (negb (outOfFuel l)); fields; repeat split.
Qed.

Lemma burnFuel_cut :
  0 < fuel l ->
  sub64 (fuel l) (mul64 (mul64 (thrust l) FUEL_CONSUMPTION_RATE) dt) <= 0 ->
  let l' := snd (burnFuel dt l) in
  fuel l' = 0 /\ outOfFuel l' = true /\ thrust l' = 0.
Proof.
  intros Hf Hcut. unfold burnFuel.
  apply Qgtb_true in Hf. rewrite Hf. fields.
  apply Qleb_true in Hcut. rewrite Hcut. fields. repeat split.
Qed.

Lemma burnFuel_keep :
  0 < fuel l ->
  0 < sub64 (fuel l) (mul64 (mul64 (thrust l) FUEL_CONSUMPTION_RATE) dt) ->
  let l' := snd (burnFuel dt l) in
  fuel l' = sub64 (fuel l) (mul64 (mul64 (thrust l) FUEL_CONSUMPTION_RATE) dt) /\
  outOfFuel l' = outOfFuel l /\ thrust l' = thrust l.
Proof.
  intros Hf Hkeep. unfold burnFuel.
  apply Qgtb_true in Hf. rewrite Hf. fields.
  apply Qleb_false in Hkeep. rewrite Hkeep. fields. repeat split.
Qed.

Lemma burnFuel_empty :
  fuel l <= 0 ->
  let l' := snd (burnFuel dt l) in
  fuel l' = fuel l /\ outOfFuel l' = true /\
  (outOfFuel l = false -> thrust l' = 0) /\
  (outOfFuel l = true -> thrust l' = thrust l).
Proof.
  intros Hf. unfold burnFuel.
  apply Qgtb_false in Hf. rewrite Hf.
  destruct (outOfFuel l) eqn:E; simpl; repeat split; congruence.
Qed.

Lemma flightStep_velocity :
  velocity (flightStep dt l) =
  add64 (velocity l) (mul64 (sub64 GRAVITY (fst (burnFuel dt l))) dt).
Proof.
  unfold flightStep. destruct (burnFuel_frame) as (_ & Hv & _).
  destruct (burnFuel dt l) as [ta l1]. simpl in *. now rewrite Hv.
Qed.

Lemma flightStep_altitude :
  altitude (flightStep dt l) =
  sub64 (altitude l) (mul64 (velocity (flightStep dt l)) dt).
Proof.
  rewrite flightStep_velocity.
  unfold flightStep. destruct (burnFuel_frame) as (Ha & Hv & _).
  destruct (burnFuel dt l) as [ta l1]. simpl in *. now rewrite Ha, Hv.
Qed.

(** The motion block leaves the fuel block's results alone. *)
Lemma flightStep_frame :
  let l1 := snd (burnFuel dt l) in
  let l' := flightStep dt l in
  fuel l' = fuel l1 /\ outOfFuel l' = outOfFuel l1 /\ thrust l' = thrust l1 /\
  safeLandingSpeed l' = safeLandingSpeed l /\
  landed l' = landed l /\ crashed l' = crashed l /\
  lastUpdateTime l' = lastUpdateTime l /\
  impactVelocity l' = impactVelocity l.
Proof.
  unfold flightStep.
  destruct (burnFuel_frame) as (_ & _ & Hs & Hl & Hc & Ht & Hi).
  destruct (burnFuel dt l) as [ta l1]. simpl in *. repeat split; assumption.
Qed.

End Blocks.

Section Touchdown.

Variable l : LunarLander.

Lemma touchdown_contact :
  altitude l <= 0 ->
  let l' := touchdown l in
  altitude l' = 0 /\ impactVelocity l' = Some (velocity l) /\
  velocity l' = 0 /\ thrust l' = 0 /\
  fuel l' = fuel l /\ outOfFuel l' = outOfFuel l /\
  safeLandingSpeed l' = safeLandingSpeed l /\
  lastUpdateTime l' = lastUpdateTime l /\
  (velocity l <= safeLandingSpeed l ->
   landed l' = true /\ crashed l' = crashed l) /\
  (safeLandingSpeed l < velocity l ->
   crashed l' = true /\ landed l' = landed l).
Proof.
  intros Ha. unfold touchdown. apply Qleb_true in Ha. rewrite Ha. simpl.
  destruct (Qleb (velocity l) (safeLandingSpeed l)) eqn:E; simpl; qtests;
    repeat split; try reflexivity; intros; exfalso; lra.
Qed.

Lemma touchdown_aloft : 0 < altitude l -> touchdown l = l.
Proof.
  intros Ha. unfold touchdown. apply Qleb_false in Ha. now rewrite Ha.
Qed.

End Touchdown.

Lemma updatePhysics_terminal (now : Z) (l : LunarLander) :
  outcome l <> InFlight -> updatePhysics now l = l.
Proof.
  intros H. apply outcome_terminal in H. unfold updatePhysics. now rewrite H.
Qed.

Lemma updatePhysics_inflight (now : Z) (l : LunarLander) :
  outcome l = InFlight ->
  updatePhysics now l =
  touchdown (flightStep (elapsed now l) (set_lastUpdateTime now l)).
Proof.
  intros H. apply outcome_InFlight in H. unfold updatePhysics. now rewrite H.
Qed.

Lemma touchdown_fuel (l : LunarLander) :
  let l' := touchdown l in
  fuel l' = fuel l /\ outOfFuel l' = outOfFuel l /\
  safeLandingSpeed l' = safeLandingSpeed l /\
  lastUpdateTime l' = lastUpdateTime l /\
  (thrust l' = 0 \/ thrust l' = thrust l).
Proof.
  unfold touchdown. destruct (Qleb (altitude l) 0); simpl.
  - destruct (Qleb (velocity l) (safeLandingSpeed l)); simpl; repeat split;
      now left.
  - repeat split. now right.
Qed.

Lemma touchdown_altitude (l : LunarLander) : 0 <= altitude (touchdown l).
Proof.
  destruct (Qlt_le_dec 0 (altitude l)) as [H | H].
  - rewrite touchdown_aloft by assumption. lra.
  - destruct (touchdown_contact l H) as (-> & _). lra.
Qed.

(** ** Fuel accounting of one call *)

Section FuelStep.

Variables (dt : Q) (l : LunarLander).
Hypothesis fuel_double : isDouble (fuel l).
Hypothesis fuel_nonneg : 0 <= fuel l.
Hypothesis thrust_nonneg : 0 <= thrust l.
Hypothesis dt_nonneg : 0 <= dt.

Lemma FUEL_CONSUMPTION_RATE_pos : 0 < FUEL_CONSUMPTION_RATE.
Proof. vm_compute. reflexivity. Qed.

Lemma fuelConsumed_nonneg :
  0 <= mul64 (mul64 (thrust l) FUEL_CONSUMPTION_RATE) dt.
Proof.
  pose proof FUEL_CONSUMPTION_RATE_pos as Hr.
  apply round64_nonneg, Qmult_le_0_compat; [|assumption].
  apply round64_nonneg, Qmult_le_0_compat; [assumption | lra].
Qed.

Lemma burnFuel_fuel :
  let l' := snd (burnFuel dt l) in
  fuel l' <= fuel l /\ 0 <= fuel l' /\ 0 <= thrust l' /\ isDouble (fuel l').
Proof.
  pose proof fuelConsumed_nonneg as Hc.
  set (c := mul64 (mul64 (thrust l) FUEL_CONSUMPTION_RATE) dt) in *.
  destruct (Qlt_le_dec 0 (fuel l)) as [Hpos | Hemp].
  - destruct (Qlt_le_dec 0 (sub64 (fuel l) c)) as [Hkeep | Hcut].
    + destruct (burnFuel_keep dt l Hpos Hkeep) as (Hf & _ & Ht).
      simpl. rewrite Hf, Ht. fold c. repeat apply conj.
      * apply round64_le; [assumption | lra].
      * lra.
      * assumption.
      * apply isDouble_round64.
    + destruct (burnFuel_cut dt l Hpos Hcut) as (Hf & _ & Ht).
      simpl. rewrite Hf, Ht. repeat apply conj; try lra. apply isDouble_0.
  - destruct (burnFuel_empty dt l Hemp) as (Hf & _ & Ht0 & Ht1).
    simpl. rewrite Hf. repeat apply conj; try lra; try assumption.
    destruct (outOfFuel l); [rewrite Ht1 | rewrite Ht0]; auto; lra.
Qed.

Lemma physicsStep_fuel :
  let l' := physicsStep dt l in
  fuel l' <= fuel l /\ 0 <= fuel l' /\ 0 <= thrust l' /\ isDouble (fuel l').
Proof.
  unfold physicsStep.
  destruct (touchdown_fuel (flightStep dt l)) as (Hf & _ & _ & _ & Ht).
  destruct (flightStep_frame dt l) as (Hf1 & _ & Ht1 & _).
  destruct burnFuel_fuel as (H1 & H2 & H3 & H4).
  simpl. rewrite Hf, Hf1. repeat apply conj; try assumption.
  destruct Ht as [-> | ->]; [lra | now rewrite Ht1].
Qed.

Lemma physicsStep_idle_fuel :
  thrust l == 0 -> fuel (physicsStep dt l) == fuel l.
Proof.
  intros Hz. unfold physicsStep.
  destruct (touchdown_fuel (flightStep dt l)) as (-> & _).
  destruct (flightStep_frame dt l) as (-> & _).
  assert (Hc : mul64 (mul64 (thrust l) FUEL_CONSUMPTION_RATE) dt == 0).
  { unfold mul64. apply round64_zero.
    rewrite (round64_zero (thrust l * FUEL_CONSUMPTION_RATE))
      by (rewrite Hz; apply Qmult_0_l).
    apply Qmult_0_l. }
  assert (Hs : sub64 (fuel l)
                 (mul64 (mul64 (thrust l) FUEL_CONSUMPTION_RATE) dt)
               == fuel l).
  { unfold sub64 at 1.
    rewrite (round64_proper
               (fuel l - mul64 (mul64 (thrust l) FUEL_CONSUMPTION_RATE) dt)
               (fuel l)) by (rewrite Hc; ring).
    exact fuel_double. }
  destruct (Qlt_le_dec 0 (fuel l)) as [Hpos | Hemp].
  - assert (Hk : 0 < sub64 (fuel l)
                       (mul64 (mul64 (thrust l) FUEL_CONSUMPTION_RATE) dt))
      by (rewrite Hs; assumption).
    destruct (burnFuel_keep dt l Hpos Hk) as (-> & _). exact Hs.
  - destruct (burnFuel_empty dt l Hemp) as (-> & _). reflexivity.
Qed.

End FuelStep.

Lemma elapsed_set_lastUpdateTime (now t : Z) (l : LunarLander) :
  elapsed now (set_lastUpdateTime t l) =
  div64 (sub64 (inject_Z now) (inject_Z t)) 1000.
Proof. reflexivity. Qed.

Lemma updatePhysics_fuel (now : Z) (l : LunarLander) :
  isDouble (fuel l) -> 0 <= fuel l -> 0 <= thrust l -> 0 <= elapsed now l ->
  let l' := updatePhysics now l in
  fuel l' <= fuel l /\ 0 <= fuel l' /\ 0 <= thrust l' /\ isDouble (fuel l').
Proof.
  intros Hd Hf Ht Hdt. unfold updatePhysics.
  destruct (landed l || crashed l).
  - simpl. repeat apply conj; try assumption; lra.
  - apply (physicsStep_fuel (elapsed now l) (set_lastUpdateTime now l));
      assumption.
Qed.

Lemma updatePhysics_idle_fuel (now : Z) (l : LunarLander) :
  isDouble (fuel l) -> thrust l == 0 -> fuel (updatePhysics now l) == fuel l.
Proof.
  intros Hd Hz. unfold updatePhysics.
  destruct (landed l || crashed l); [reflexivity|].
  apply (physicsStep_idle_fuel (elapsed now l) (set_lastUpdateTime now l) Hd Hz).
Qed.

Lemma updatePhysics_fuel_cut (now : Z) (l : LunarLander) :
  outcome l = InFlight -> 0 < fuel l ->
  sub64 (fuel l)
    (mul64 (mul64 (thrust l) FUEL_CONSUMPTION_RATE) (elapsed now l)) <= 0 ->
  let l' := updatePhysics now l in
  fuel l' = 0 /\ outOfFuel l' = true /\ thrust l' = 0.
Proof.
  intros Ho Hpos Hcut. simpl. rewrite updatePhysics_inflight by assumption.
  set (l0 := set_lastUpdateTime now l).
  destruct (touchdown_fuel (flightStep (elapsed now l) l0))
    as (-> & -> & _ & _ & Ht).
  destruct (flightStep_frame (elapsed now l) l0) as (Hf & Hoof & Hth & _).
  destruct (burnFuel_cut (elapsed now l) l0 Hpos Hcut) as (H1 & H2 & H3).
  rewrite Hf, Hoof. repeat split; try assumption.
  destruct Ht as [-> | ->]; [reflexivity | now rewrite Hth].
Qed.

(** ** Runs of the timer *)

Lemma runTicks_app (pre post : list Z) (l : LunarLander) :
  runTicks (pre ++ post) l = runTicks post (runTicks pre l).
Proof. apply fold_left_app. Qed.

Lemma advancing_app (pre post : list Z) :
  forall l, advancing (pre ++ post) l ->
            advancing pre l /\ advancing post (runTicks pre l).
Proof.
  induction pre as [|now pre IH]; intros l H; simpl in *.
  - now split.
  - destruct H as [Hdt H]. destruct (IH _ H) as [H1 H2]. now repeat split.
Qed.

Lemma runTicks_fuel (nows : list Z) :
  forall l, isDouble (fuel l) -> 0 <= fuel l -> 0 <= thrust l ->
            advancing nows l ->
  let l' := runTicks nows l in
  fuel l' <= fuel l /\ 0 <= fuel l' /\ 0 <= thrust l' /\ isDouble (fuel l').
Proof.
  induction nows as [|now nows IH]; intros l Hd Hf Ht Hadv; simpl in *.
  - repeat apply conj; try assumption; lra.
  - destruct Hadv as [Hdt Hadv].
    destruct (updatePhysics_fuel now l Hd Hf Ht) as (H1 & H2 & H3 & H4);
      [lra|].
    destruct (IH _ H4 H2 H3 Hadv) as (H5 & H6 & H7 & H8).
    repeat apply conj; try assumption. lra.
Qed.

Lemma runTicks_terminal (nows : list Z) :
  forall l, outcome l <> InFlight -> runTicks nows l = l.
Proof.
  induction nows as [|now nows IH]; intros l H; simpl.
  - reflexivity.
  - rewrite updatePhysics_terminal by assumption. now apply IH.
Qed.

(** ** The invariants of the data model hold in every mission state *)

Lemma newLunarLander_wellFormed (now : Z) (a v f s : Q) :
  0 <= a -> 0 <= f -> wellFormed (newLunarLander now a v f s).
Proof.
  intros Ha Hf. constructor; simpl; try assumption; try reflexivity.
  - split; lra.
  - discriminate.
Qed.

Lemma setThrust_range (x : Q) (l : LunarLander) :
  0 <= thrust (setThrust x l) /\ thrust (setThrust x l) <= 100.
Proof.
  unfold setThrust. destruct (landed l || crashed l); simpl; [split; lra|].
  destruct (Qleb (fuel l) 0); [split; lra|]. split.
  - apply Q.le_max_l.
  - apply Q.max_lub; [lra | apply Q.le_min_l].
Qed.

Lemma setThrust_wellFormed (x : Q) (l : LunarLander) :
  wellFormed l -> wellFormed (setThrust x l).
Proof.
  intros [Ha Hf Ht Ho He]. pose proof (setThrust_range x l) as Hr.
  unfold setThrust in *.
  destruct (landed l || crashed l); constructor; simpl in *; assumption.
Qed.

Lemma set_lastUpdateTime_wellFormed (now : Z) (l : LunarLander) :
  wellFormed l -> wellFormed (set_lastUpdateTime now l).
Proof. intros [Ha Hf Ht Ho He]. constructor; assumption. Qed.

Lemma burnFuel_outOfFuel (dt : Q) (l : LunarLander) :
  (outOfFuel l = true -> fuel l <= 0) ->
  let l' := snd (burnFuel dt l) in
  outOfFuel l' = true -> fuel l' <= 0.
Proof.
  intros Hinv. simpl.
  destruct (Qlt_le_dec 0 (fuel l)) as [Hpos | Hemp].
  - destruct (Qlt_le_dec 0
                (sub64 (fuel l)
                   (mul64 (mul64 (thrust l) FUEL_CONSUMPTION_RATE) dt)))
      as [Hkeep | Hcut].
    + destruct (burnFuel_keep dt l Hpos Hkeep) as (_ & -> & _).
      intros H. apply Hinv in H. lra.
    + destruct (burnFuel_cut dt l Hpos Hcut) as (-> & _). intros _. lra.
  - destruct (burnFuel_empty dt l Hemp) as (-> & _). now intros _.
Qed.

Lemma burnFuel_nonneg (dt : Q) (l : LunarLander) :
  0 <= fuel l ->
  let l' := snd (burnFuel dt l) in
  0 <= fuel l'.
Proof.
  intros Hf. simpl.
  destruct (Qlt_le_dec 0 (fuel l)) as [Hpos | Hemp].
  - destruct (Qlt_le_dec 0
                (sub64 (fuel l)
                   (mul64 (mul64 (thrust l) FUEL_CONSUMPTION_RATE) dt)))
      as [Hkeep | Hcut].
    + destruct (burnFuel_keep dt l Hpos Hkeep) as (-> & _). lra.
    + destruct (burnFuel_cut dt l Hpos Hcut) as (-> & _). lra.
  - now destruct (burnFuel_empty dt l Hemp) as (-> & _).
Qed.

Lemma burnFuel_thrust (dt : Q) (l : LunarLander) :
  let l' := snd (burnFuel dt l) in
  thrust l' = 0 \/ thrust l' = thrust l.
Proof.
  unfold burnFuel. destruct (Qgtb (fuel l) 0); fields.
  - destruct (Qleb _ 0); fields; auto.
  - destruct (negb (outOfFuel l)); fields; auto.
Qed.

Lemma touchdown_exclusive (l : LunarLander) :
  landed l = false -> crashed l = false ->
  landed (touchdown l) && crashed (touchdown l) = false.
Proof.
  intros Hl Hc. unfold touchdown. destruct (Qleb (altitude l) 0); simpl.
  - destruct (Qleb (velocity l) (safeLandingSpeed l)); simpl;
      rewrite ?Hl, ?Hc; reflexivity.
  - now rewrite Hl.
Qed.

Lemma updatePhysics_wellFormed (now : Z) (l : LunarLander) :
  wellFormed l -> 0 <= elapsed now l -> wellFormed (updatePhysics now l).
Proof.
  intros Hwf Hdt.
  destruct Hwf as [Ha Hf Ht Ho He].
  destruct (landed l || crashed l) eqn:Eterm.
  - rewrite updatePhysics_terminal by (now apply outcome_terminal).
    constructor; assumption.
  - assert (Hin : outcome l = InFlight) by (now apply outcome_InFlight).
    apply orb_false_elim in Eterm. destruct Eterm as [El Ec].
    rewrite updatePhysics_inflight in * by assumption.
    set (l0 := set_lastUpdateTime now l) in *.
    set (dt := elapsed now l) in *.
    destruct (touchdown_fuel (flightStep dt l0)) as (Tf & To & _ & _ & Tt).
    destruct (flightStep_frame dt l0) as (Ff & Fo & Ft & _ & Fl & Fc & _).
    assert (Hth : 0 <= thrust (touchdown (flightStep dt l0)) <= 100).
    { destruct Tt as [-> | ->]; [lra|]. rewrite Ft.
      destruct (burnFuel_thrust dt l0) as [-> | ->]; [lra | apply Ht]. }
    constructor.
    + apply touchdown_altitude.
    + rewrite Tf, Ff. now apply burnFuel_nonneg.
    + exact Hth.
    + rewrite To, Tf, Fo, Ff. now apply burnFuel_outOfFuel.
    + apply touchdown_exclusive; [now rewrite Fl | now rewrite Fc].
Qed.

Lemma reachable_wellFormed (l : LunarLander) : reachable l -> wellFormed l.
Proof.
  induction 1 as [now a v f s Ha Hf Hs | x l _ IH | now l _ IH Hdt | now l _ IH].
  - now apply newLunarLander_wellFormed.
  - now apply setThrust_wellFormed.
  - now apply updatePhysics_wellFormed.
  - now apply set_lastUpdateTime_wellFormed.
Qed.

(** In a mission, once [outOfFuel] is set no fuel is left, so [setThrust]
    stores 0 from then on. *)
Lemma reachable_outOfFuel_setThrust (x : Q) (l : LunarLander) :
  reachable l -> outOfFuel l = true -> thrust (setThrust x l) = 0.
Proof.
  intros Hr Ho. apply reachable_wellFormed in Hr.
  pose proof (wf_outOfFuel l Hr Ho) as Hf.
  unfold setThrust. destruct (landed l || crashed l); [reflexivity|].
  apply Qleb_true in Hf. now rewrite Hf.
Qed.

(** ** The input loop *)

Lemma handleAnswer_flags (answer : jsstring) (m : Mission) :
  gameRunning (handleAnswer answer m) = gameRunning m /\
  rlClosed (handleAnswer answer m) = rlClosed m.
Proof.
  unfold handleAnswer. destruct (negb (gameRunning m) || rlClosed m).
  - now split.
  - destruct (parseInt answer (Some 10%Z)); [now split|].
    destruct (trim answer); now split.
Qed.

Lemma askForThrust_stopped (answers : list jsstring) (m : Mission) :
  flying m = false -> askForThrust answers m = m.
Proof.
  unfold flying. intros H.
  destruct answers; simpl; destruct (gameRunning m), (rlClosed m);
    simpl in *; congruence.
Qed.

Lemma askForThrust_step (answer : jsstring) (rest : list jsstring) (m : Mission) :
  flying m = true ->
  askForThrust (answer :: rest) m = askForThrust rest (handleAnswer answer m).
Proof.
  unfold flying. intros H. simpl.
  destruct (handleAnswer_flags answer m) as [-> ->].
  apply andb_true_iff in H. destruct H as [-> Hopen].
  apply negb_true_iff in Hopen. rewrite Hopen. reflexivity.
Qed.

(** ** The fields stay binary64 numbers

    Whatever [updatePhysics] stores in [fuel], [altitude] and [velocity] is
    the result of a rounded operation, the literal 0 or the value the field
    had. *)
Lemma burnFuel_isDouble (dt : Q) (l : LunarLander) :
  isDouble (fuel l) -> isDouble (fuel (snd (burnFuel dt l))).
Proof.
  intros Hd.
  destruct (Qlt_le_dec 0 (fuel l)) as [Hpos | Hemp].
  - destruct (Qlt_le_dec 0
                (sub64 (fuel l)
                   (mul64 (mul64 (thrust l) FUEL_CONSUMPTION_RATE) dt)))
      as [Hkeep | Hcut].
    + destruct (burnFuel_keep dt l Hpos Hkeep) as (-> & _).
      apply isDouble_round64.
    + destruct (burnFuel_cut dt l Hpos Hcut) as (-> & _). apply isDouble_0.
  - now destruct (burnFuel_empty dt l Hemp) as (-> & _).
Qed.

Lemma updatePhysics_isDouble (now : Z) (l : LunarLander) :
  isDouble (fuel l) -> isDouble (altitude l) -> isDouble (velocity l) ->
  let l' := updatePhysics now l in
  isDouble (fuel l') /\ isDouble (altitude l') /\ isDouble (velocity l').
Proof.
  intros Hf Ha Hv. simpl.
  destruct (outcome l) eqn:Ho;
    try (rewrite updatePhysics_terminal by (rewrite Ho; discriminate);
         now repeat apply conj).
  rewrite updatePhysics_inflight by assumption.
  set (l0 := set_lastUpdateTime now l). set (dt := elapsed now l).
  assert (Hfuel : isDouble (fuel (touchdown (flightStep dt l0)))).
  { destruct (touchdown_fuel (flightStep dt l0)) as (-> & _).
    destruct (flightStep_frame dt l0) as (-> & _).
    now apply burnFuel_isDouble. }
  destruct (Qlt_le_dec 0 (altitude (flightStep dt l0))) as [Hup | Hdown].
  - rewrite touchdown_aloft in * by assumption.
    repeat apply conj; [assumption | |].
    + rewrite flightStep_altitude. apply isDouble_round64.
    + rewrite flightStep_velocity. apply isDouble_round64.
  - destruct (touchdown_contact (flightStep dt l0) Hdown)
      as (-> & _ & -> & _).
    repeat apply conj; [assumption | apply isDouble_0 | apply isDouble_0].
Qed.

(** ** The arithmetic of the model against binary64

    The expressions of [updatePhysics], evaluated by the kernel's primitive
    floats (IEEE-754 binary64), give the numbers the model computes: the
    three constants; the impact velocity of a call from velocity 8.025 with
    thrust 31 after 1 s; the fuel left of 0.45 kg by thrust 15 after 300 ms;
    the altitude left of 1.84 m at velocity 1 after 800 ms; the velocity
    after three free-fall calls 100 ms apart; and a tie in the subnormal
    range.  A decimal literal is given as the quotient of two integers,
    which binary64 division rounds to the number the literal denotes. *)
Lemma binary64_reference_check :
  Q_of_float (flt 15 / flt 100) = THRUST_POWER /\
  Q_of_float (flt 1 / flt 10) = FUEL_CONSUMPTION_RATE /\
  Q_of_float (flt 1625 / flt 1000) = GRAVITY /\
  (let l := setThrust 31 (newLunarLander 0 1 (round64 8.025) 1200 5) in
   let dt := ((flt 1000 - flt 0) / flt 1000)%float in
   impactVelocity (updatePhysics 1000 l) =
   Some (Q_of_float
           (flt 8025 / flt 1000
            + (flt 1625 / flt 1000 - flt 31 * (flt 15 / flt 100)) * dt))) /\
  (let l := setThrust 15 (newLunarLander 0 1000 50 (round64 0.45) 5) in
   let dt := ((flt 300 - flt 0) / flt 1000)%float in
   fuel (updatePhysics 300 l) =
   Q_of_float (flt 45 / flt 100 - flt 15 * (flt 1 / flt 10) * dt)) /\
  (let l := newLunarLander 0 (round64 1.84) 1 0 5 in
   let dt := ((flt 800 - flt 0) / flt 1000)%float in
   altitude (updatePhysics 800 l) =
   Q_of_float
     (flt 184 / flt 100 - (flt 1 + (flt 1625 / flt 1000 - flt 0) * dt) * dt)) /\
  (let l := newLunarLander 0 1000 0 0 5 in
   let g := (flt 1625 / flt 1000 - flt 0)%float in
   let dt := ((flt 100 - flt 0) / flt 1000)%float in
   velocity (runTicks [100; 200; 300]%Z l) =
   Q_of_float (flt 0 + g * dt + g * dt + g * dt)) /\
  round64 (3 * pow2 (-1075)) =
  Q_of_float (PrimFloat.ldshiftexp (flt 3) (Uint63.of_Z (2101 - 1075))).
Proof. vm_compute. repeat apply conj; reflexivity. Qed.

(** * The specification's properties *)

(** C1.  At the call of [updatePhysics] in which the altitude of a lander in
    flight becomes [<= 0], the altitude is set to exactly 0, [impactVelocity]
    records the velocity just before it is zeroed (the velocity after this
    call's velocity update, as the binary64 operations of the call compute
    it), and the outcome becomes Landed when that velocity is at or below
    [safeLandingSpeed] and Crashed when it is above; equality with
    [safeLandingSpeed] gives Landed. *)
Theorem touchdown_outcome (now : Z) (l : LunarLander) :
  outcome l = InFlight ->
  let atCheck := flightStep (elapsed now l) (set_lastUpdateTime now l) in
  altitude atCheck <= 0 ->
  let l' := updatePhysics now l in
  altitude l' = 0 /\
  velocity atCheck =
    add64 (velocity l)
      (mul64 (sub64 GRAVITY
                (if Qgtb (fuel l) 0 then mul64 (thrust l) THRUST_POWER else 0))
         (elapsed now l)) /\
  impactVelocity l' = Some (velocity atCheck) /\
  velocity l' = 0 /\
  (velocity atCheck <= safeLandingSpeed l -> outcome l' = Landed) /\
  (safeLandingSpeed l < velocity atCheck -> outcome l' = Crashed) /\
  (velocity atCheck == safeLandingSpeed l -> outcome l' = Landed).
Proof.
  intros Ho atCheck Halt l'. subst l'.
  rewrite updatePhysics_inflight by assumption. fold atCheck.
  destruct (touchdown_contact atCheck Halt)
    as (Ha & Hi & Hv & _ & _ & _ & _ & _ & Hland & Hcrash).
  destruct (flightStep_frame (elapsed now l) (set_lastUpdateTime now l))
    as (_ & _ & _ & Hs & Hl & Hc & _).
  fold atCheck in Hs, Hl, Hc. simpl in Hs, Hl, Hc.
  apply outcome_InFlight, orb_false_elim in Ho. destruct Ho as [Hl0 Hc0].
  assert (HL : velocity atCheck <= safeLandingSpeed l ->
               outcome (touchdown atCheck) = Landed).
  { intros H. rewrite <- Hs in H. destruct (Hland H) as [HL _].
    unfold outcome. now rewrite HL. }
  repeat split; try assumption.
  - unfold atCheck. rewrite flightStep_velocity, burnFuel_thrustAccel.
    reflexivity.
  - intros H. rewrite <- Hs in H. destruct (Hcrash H) as [HC HL'].
    unfold outcome. now rewrite HL', Hl, Hl0, HC.
  - intros H. apply HL. lra.
Qed.

(** Scenario C: fuel 0, altitude 1, velocity 3.375, one second: the impact
    velocity is exactly the safe landing speed 5, every operation of the
    call being exact in binary64. *)
Lemma touchdown_outcome_witness :
  let l := newLunarLander 0 1 3.375 0 5 in
  let l' := updatePhysics 1000 l in
  outcome l = InFlight /\
  altitude (flightStep (elapsed 1000 l) (set_lastUpdateTime 1000 l)) <= 0 /\
  altitude l' = 0 /\ impactVelocity l' = Some 5 /\
  outcome l' = Landed.
Proof.
  intros l l'.
  assert (Ho : outcome l = InFlight) by reflexivity.
  assert (Ha : altitude (flightStep (elapsed 1000 l) (set_lastUpdateTime 1000 l))
               <= 0) by (vm_compute; discriminate).
  assert (Hv : velocity (flightStep (elapsed 1000 l) (set_lastUpdateTime 1000 l))
               = 5) by (vm_compute; reflexivity).
  destruct (touchdown_outcome 1000 l Ho Ha) as (H1 & _ & H3 & _ & _ & _ & H7).
  rewrite Hv in H3, H7.
  unfold l'. refine (conj Ho (conj Ha (conj H1 (conj H3 _)))).
  apply H7. reflexivity.
Defined.

(** Rounding decides the outcome.  Altitude 1, velocity 8.025, fuel 1200,
    safe speed 5, thrust command 31, one second: in exact arithmetic the
    impact velocity would be 8.025 + (1.625 - 4.65) = 5, a landing; the
    binary64 operations give 5 + 2^-50 (printed 5.000000000000001), and the
    lander crashes. *)
Lemma touchdown_rounding_example :
  let l := setThrust 31 (newLunarLander 0 1 (round64 8.025) 1200 5) in
  let l' := updatePhysics 1000 l in
  impactVelocity l' = Some (5629499534213121 # 1125899906842624) /\
  (5629499534213121 # 1125899906842624) == 5 + pow2 (-50) /\
  outcome l' = Crashed.
Proof. vm_compute. repeat apply conj; reflexivity. Qed.

(** C2.  For a lander in flight with fuel left and a positive [dt], the call
    computes [thrustAccel = thrust * THRUST_POWER] and
    [fuelConsumed = thrust * FUEL_CONSUMPTION_RATE * dt] (each product
    rounded to binary64); when the deduction brings the fuel to [<= 0], the
    fuel becomes exactly 0, [outOfFuel] becomes true and the thrust becomes
    0, and the velocity update of the same call still adds
    [(GRAVITY - thrustAccel) * dt] with the thrust acceleration computed
    before the cut. *)
Theorem fuel_cut_same_tick (now : Z) (l : LunarLander) :
  outcome l = InFlight -> 0 < fuel l -> 0 < elapsed now l ->
  let dt := elapsed now l in
  let thrustAccel := mul64 (thrust l) THRUST_POWER in
  let fuelConsumed := mul64 (mul64 (thrust l) FUEL_CONSUMPTION_RATE) dt in
  let atCheck := flightStep dt (set_lastUpdateTime now l) in
  let l' := updatePhysics now l in
  fst (burnFuel dt (set_lastUpdateTime now l)) = thrustAccel /\
  velocity atCheck =
    add64 (velocity l) (mul64 (sub64 GRAVITY thrustAccel) dt) /\
  (0 < altitude atCheck -> velocity l' = velocity atCheck) /\
  (altitude atCheck <= 0 -> impactVelocity l' = Some (velocity atCheck)) /\
  (sub64 (fuel l) fuelConsumed <= 0 ->
   fuel l' = 0 /\ outOfFuel l' = true /\ thrust l' = 0) /\
  (0 < sub64 (fuel l) fuelConsumed ->
   fuel l' = sub64 (fuel l) fuelConsumed).
Proof.
  intros Ho Hpos Hdt dt thrustAccel fuelConsumed atCheck l'.
  assert (Hta : fst (burnFuel dt (set_lastUpdateTime now l)) = thrustAccel).
  { rewrite burnFuel_thrustAccel. simpl.
    apply Qgtb_true in Hpos. now rewrite Hpos. }
  assert (Hl' : l' = touchdown atCheck)
    by (apply updatePhysics_inflight; assumption).
  repeat apply conj.
  - assumption.
  - unfold atCheck. now rewrite flightStep_velocity, Hta.
  - intros H. rewrite Hl'. now rewrite touchdown_aloft.
  - intros H. rewrite Hl'.
    now destruct (touchdown_contact atCheck H) as (_ & Hi & _).
  - intros Hcut. now apply updatePhysics_fuel_cut.
  - intros Hkeep. rewrite Hl'.
    destruct (touchdown_fuel atCheck) as (-> & _).
    destruct (flightStep_frame dt (set_lastUpdateTime now l)) as (Hf & _).
    fold atCheck in Hf. rewrite Hf.
    now destruct (burnFuel_keep dt (set_lastUpdateTime now l) Hpos Hkeep)
      as (-> & _).
Qed.

(** Altitude 1000, velocity 50, fuel 5, full thrust, one second: the 10 kg
    the call would consume exceed the 5 kg left; the velocity still gets the
    full-thrust term, 50 + (1.625 - 15). *)
Lemma fuel_cut_same_tick_witness :
  let l := setThrust 100 (newLunarLander 0 1000 50 5 5) in
  let l' := updatePhysics 1000 l in
  outcome l = InFlight /\ 0 < fuel l /\ 0 < elapsed 1000 l /\
  fuel l' = 0 /\ outOfFuel l' = true /\ thrust l' = 0 /\
  velocity l' == 36.625.
Proof.
  intros l l'.
  assert (Ho : outcome l = InFlight) by reflexivity.
  assert (Hf : 0 < fuel l) by reflexivity.
  assert (Hdt : 0 < elapsed 1000 l)
    by (vm_compute; reflexivity).
  destruct (fuel_cut_same_tick 1000 l Ho Hf Hdt) as (_ & _ & H3 & _ & H5 & _).
  assert (Hcut : sub64 (fuel l)
                   (mul64 (mul64 (thrust l) FUEL_CONSUMPTION_RATE)
                      (elapsed 1000 l)) <= 0)
    by (vm_compute; discriminate).
  assert (Ha : 0 < altitude (flightStep (elapsed 1000 l)
                               (set_lastUpdateTime 1000 l)))
    by (vm_compute; reflexivity).
  assert (Hv : velocity (flightStep (elapsed 1000 l)
                           (set_lastUpdateTime 1000 l)) == 36.625)
    by (vm_compute; reflexivity).
  destruct (H5 Hcut) as (H6 & H7 & H8).
  pose proof (H3 Ha) as H9.
  unfold l'.
  refine (conj Ho (conj Hf (conj Hdt (conj H6 (conj H7 (conj H8 _)))))).
  rewrite H9. exact Hv.
Defined.

(** The test of the cut is made on the rounded difference.  Fuel 0.45,
    thrust command 15, a call after 300 ms: in exact arithmetic the call
    would consume 15 * 0.1 * 0.3 = 0.45 and cut the engine; the binary64
    operations leave 2^-54 kg (printed 5.55e-17), the flag stays false and
    the thrust stays 15. *)
Lemma fuel_cut_rounding_example :
  let l := setThrust 15 (newLunarLander 0 1000 50 (round64 0.45) 5) in
  let l' := updatePhysics 300 l in
  fuel l' == pow2 (-54) /\ outOfFuel l' = false /\ thrust l' = 15.
Proof. vm_compute. repeat apply conj; reflexivity. Qed.

(** Fuel 1, thrust command 2, one call per second: after five calls
    2^-54 kg are left and the thrust is still 2; the sixth call cuts. *)
Lemma fuel_cut_late_example :
  let l := setThrust 2 (newLunarLander 0 100000 0 1 5) in
  let l5 := runTicks [1000; 2000; 3000; 4000; 5000]%Z l in
  fuel l5 == pow2 (-54) /\ outOfFuel l5 = false /\ thrust l5 = 2 /\
  fuel (updatePhysics 6000 l5) = 0 /\
  outOfFuel (updatePhysics 6000 l5) = true /\
  thrust (updatePhysics 6000 l5) = 0.
Proof. vm_compute. repeat apply conj; reflexivity. Qed.

(** C3.  Along every run of [updatePhysics] calls with positive [dt], from
    a lander whose fuel is a binary64 number with [fuel >= 0] and a thrust
    command in its range ([thrust >= 0]): the fuel after any further calls
    is at most the fuel before them and is never negative; a call made with
    [thrust = 0] leaves the fuel unchanged; and a call whose deduction, as
    computed, brings the fuel to zero or below sets it to exactly 0. *)
Theorem fuel_monotone (pre post : list Z) (l : LunarLander) :
  isDouble (fuel l) -> 0 <= fuel l -> 0 <= thrust l ->
  advancing (pre ++ post) l ->
  let before := runTicks pre l in
  let after := runTicks (pre ++ post) l in
  fuel after <= fuel before /\ 0 <= fuel after /\
  (forall now, thrust before == 0 ->
               fuel (updatePhysics now before) == fuel before) /\
  (forall now,
     outcome before = InFlight -> 0 < fuel before ->
     sub64 (fuel before)
       (mul64 (mul64 (thrust before) FUEL_CONSUMPTION_RATE)
          (elapsed now before)) <= 0 ->
     fuel (updatePhysics now before) = 0).
Proof.
  intros Hd Hf Ht Hadv before after.
  destruct (advancing_app pre post l Hadv) as [Hpre Hpost].
  destruct (runTicks_fuel pre l Hd Hf Ht Hpre) as (_ & Hf1 & Ht1 & Hd1).
  destruct (runTicks_fuel post _ Hd1 Hf1 Ht1 Hpost) as (H1 & H2 & _).
  unfold after. rewrite runTicks_app. fold before.
  repeat apply conj; try assumption.
  - intros now Hz. now apply updatePhysics_idle_fuel.
  - intros now Ho Hpos Hcut. now apply updatePhysics_fuel_cut.
Qed.

(** Fuel 25 at full thrust, one call per second: 15 kg after the first
    call, 5 kg after the second, cut to 0 by the third, 0 after the
    fourth. *)
Lemma fuel_monotone_witness :
  let l := setThrust 100 (newLunarLander 0 1000 0 25 5) in
  isDouble (fuel l) /\ 0 <= fuel l /\ 0 <= thrust l /\
  advancing ([1000; 2000] ++ [3000; 4000])%Z l /\
  fuel (runTicks ([1000; 2000] ++ [3000; 4000])%Z l)
    <= fuel (runTicks [1000; 2000]%Z l) /\
  fuel (updatePhysics 3000 (runTicks [1000; 2000]%Z l)) = 0.
Proof.
  intros l.
  assert (Hd : isDouble (fuel l)) by (vm_compute; reflexivity).
  assert (Hf : 0 <= fuel l) by (vm_compute; discriminate).
  assert (Ht : 0 <= thrust l) by (vm_compute; discriminate).
  assert (Hadv : advancing ([1000; 2000] ++ [3000; 4000])%Z l)
    by (vm_compute; repeat apply conj; reflexivity || exact I).
  destruct (fuel_monotone [1000; 2000]%Z [3000; 4000]%Z l Hd Hf Ht Hadv)
    as (H1 & _ & _ & H4).
  refine (conj Hd (conj Hf (conj Ht (conj Hadv (conj H1 _))))).
  apply H4; [reflexivity | reflexivity | vm_compute; discriminate].
Defined.

(** C4.  From a lander with [altitude >= 0], for every positive [dt], the
    altitude after [updatePhysics] is [>= 0]; when the step of a lander in
    flight carries the altitude, as computed, to zero or below, by whatever
    amount, the altitude is exactly 0. *)
Theorem altitude_floor (now : Z) (l : LunarLander) :
  0 <= altitude l -> 0 < elapsed now l ->
  let l' := updatePhysics now l in
  0 <= altitude l' /\
  (outcome l = InFlight ->
   sub64 (altitude l)
     (mul64 (velocity (flightStep (elapsed now l) (set_lastUpdateTime now l)))
        (elapsed now l)) <= 0 ->
   altitude l' = 0).
Proof.
  intros Ha Hdt l'. subst l'. split.
  - unfold updatePhysics. destruct (landed l || crashed l); [assumption|].
    apply touchdown_altitude.
  - intros Ho Hbelow. rewrite updatePhysics_inflight by assumption.
    apply touchdown_contact.
    rewrite flightStep_altitude. exact Hbelow.
Qed.

(** Altitude 10, velocity 50, no fuel, one call after 100 seconds: the step
    would end far below the surface. *)
Lemma altitude_floor_witness :
  let l := newLunarLander 0 10 50 0 5 in
  0 <= altitude l /\ 0 < elapsed 100000 l /\
  sub64 (altitude l) (mul64 (add64 50 (mul64 1.625 100)) 100) == -21240 /\
  altitude (updatePhysics 100000 l) = 0.
Proof.
  intros l.
  assert (Ha : 0 <= altitude l) by (vm_compute; discriminate).
  assert (Hdt : 0 < elapsed 100000 l)
    by (vm_compute; reflexivity).
  destruct (altitude_floor 100000 l Ha Hdt) as (_ & H).
  assert (Hbelow : sub64 (altitude l) (mul64 (add64 50 (mul64 1.625 100)) 100)
                   == -21240)
    by (vm_compute; reflexivity).
  refine (conj Ha (conj Hdt (conj Hbelow _))).
  apply H; [reflexivity | vm_compute; discriminate].
Defined.

(** Contact is tested on the rounded altitude.  Altitude 1.84, velocity 1,
    no fuel, safe speed 5, a call after 800 ms: in exact arithmetic the
    step would end at 1.84 - 2.3 * 0.8 = 0, a landing; the binary64
    operations leave 2^-52 m (printed 2.2e-16), and the lander is still in
    flight. *)
Lemma altitude_rounding_example :
  let l := newLunarLander 0 (round64 1.84) 1 0 5 in
  let l' := updatePhysics 800 l in
  altitude l' == pow2 (-52) /\ outcome l' = InFlight /\
  impactVelocity l' = None.
Proof. vm_compute. repeat apply conj; reflexivity. Qed.

(** Altitude 1, velocity 0.1, no fuel, safe speed 1.4, a call after 800 ms:
    in exact arithmetic the impact velocity would be 0.1 + 1.625 * 0.8 =
    1.4, a landing; the binary64 operations give 1.4000000000000001, above
    the rounded limit, and the lander crashes. *)
Lemma limit_rounding_example :
  let l := newLunarLander 0 1 (round64 0.1) 0 (round64 1.4) in
  let l' := updatePhysics 800 l in
  outcome l' = Crashed /\
  exists iv, impactVelocity l' = Some iv /\ iv == round64 1.4 + pow2 (-52).
Proof.
  vm_compute. split; [reflexivity|]. eexists. split; reflexivity.
Qed.

(** C5.  On a lander whose outcome is Landed or Crashed, any number of
    [updatePhysics] calls, whatever the clock values, return the lander
    unchanged: altitude, velocity, fuel, thrust, [outOfFuel], the outcome
    flags and [impactVelocity] (and every other field) keep their values. *)
Theorem terminal_noop (nows : list Z) (l : LunarLander) :
  outcome l <> InFlight ->
  let l' := runTicks nows l in
  l' = l /\
  altitude l' = altitude l /\ velocity l' = velocity l /\ fuel l' = fuel l /\
  thrust l' = thrust l /\ outOfFuel l' = outOfFuel l /\
  outcome l' = outcome l /\ impactVelocity l' = impactVelocity l.
Proof.
  intros H l'. subst l'. rewrite (runTicks_terminal nows l H).
  repeat apply conj; reflexivity.
Qed.

(** A lander that has crashed (altitude 10, velocity 50, no fuel, after one
    second) is ticked three more times. *)
Lemma terminal_noop_witness :
  let l := updatePhysics 1000 (newLunarLander 0 10 50 0 5) in
  outcome l = Crashed /\ runTicks [2000; 3000; 4500]%Z l = l.
Proof.
  intros l.
  assert (Hc : outcome l = Crashed) by (vm_compute; reflexivity).
  assert (Ht : outcome l <> InFlight) by (rewrite Hc; discriminate).
  exact (conj Hc (proj1 (terminal_noop [2000; 3000; 4500]%Z l Ht))).
Defined.

(** C7.  Scenario B: altitude 5, velocity 0, fuel 1000, thrust command 100,
    one call with [dt] = 1 s.  The thrust acceleration is 15, the net
    acceleration -13.375, the velocity becomes -13.375 (ascending), the
    altitude 18.375, and the lander is still in flight. *)
Theorem scenario_full_thrust (t0 : Z) (safeSpeed : Q) :
  let l0 := setThrust 100 (newLunarLander t0 5 0 1000 safeSpeed) in
  let dt := elapsed (t0 + 1000) l0 in
  let thrustAccel := fst (burnFuel dt (set_lastUpdateTime (t0 + 1000) l0)) in
  let l := updatePhysics (t0 + 1000) l0 in
  thrust l0 = 100 /\ dt == 1 /\
  thrustAccel == 100 * 0.15 /\ thrustAccel == 15 /\
  GRAVITY - thrustAccel == -13.375 /\
  velocity l == -13.375 /\
  altitude l == 5 - -13.375 /\ altitude l == 18.375 /\
  outcome l = InFlight.
Proof.
  intros l0 dt thrustAccel l.
  assert (Hdt : dt = div64 (inject_Z 1000) 1000).
  { unfold dt, elapsed. f_equal.
    change (lastUpdateTime l0) with t0. unfold sub64.
    rewrite (round64_proper (inject_Z (t0 + 1000) - inject_Z t0)
               (inject_Z 1000)) by (rewrite inject_Z_plus; ring).
    vm_compute. reflexivity. }
  unfold l, thrustAccel.
  rewrite updatePhysics_inflight by reflexivity. fold dt. rewrite Hdt.
  repeat apply conj; vm_compute; reflexivity.
Qed.

(** C8.  [setThrust] changes no field but [thrust]: altitude, velocity,
    fuel, [outOfFuel], the outcome and [impactVelocity] are unchanged; in
    particular it consumes no fuel. *)
Theorem setThrust_frame (x : Q) (l : LunarLander) :
  let l' := setThrust x l in
  altitude l' = altitude l /\ velocity l' = velocity l /\
  fuel l' = fuel l /\ outOfFuel l' = outOfFuel l /\
  landed l' = landed l /\ crashed l' = crashed l /\
  outcome l' = outcome l /\ impactVelocity l' = impactVelocity l /\
  safeLandingSpeed l' = safeLandingSpeed l /\
  lastUpdateTime l' = lastUpdateTime l.
Proof.
  unfold setThrust. destruct (landed l || crashed l);
    repeat apply conj; reflexivity.
Qed.

(** C10.  On a lander in flight with [fuel <= 0], [setThrust x] stores 0 for
    every [x], whatever the [outOfFuel] flag: the test of the source is
    [fuel <= 0]. *)
Theorem setThrust_no_fuel (x : Q) (l : LunarLander) :
  outcome l = InFlight -> fuel l <= 0 -> thrust (setThrust x l) = 0.
Proof.
  intros Ho Hf. unfold setThrust.
  apply outcome_InFlight in Ho. rewrite Ho.
  apply Qleb_true in Hf. now rewrite Hf.
Qed.

(** A mission constructed with no fuel, before its first tick: the flag
    [outOfFuel] is still false and a request of 50 stores 0. *)
Lemma setThrust_no_fuel_witness :
  let l := newLunarLander 0 1000 50 0 5 in
  outcome l = InFlight /\ fuel l <= 0 /\ outOfFuel l = false /\
  thrust (setThrust 50 l) = 0.
Proof.
  intros l.
  assert (Ho : outcome l = InFlight) by reflexivity.
  assert (Hf : fuel l <= 0) by (vm_compute; discriminate).
  refine (conj Ho (conj Hf (conj eq_refl _))).
  apply (setThrust_no_fuel 50 l Ho Hf).
Defined.

(** C6, as stated, fails: a mission constructed with no fuel is in flight
    with [outOfFuel] still false, and a request of 50 stores 0, not 50. *)
Lemma setThrust_outOfFuel_flag_counterexample :
  ~ (forall (x : Q) (l : LunarLander),
       thrust (setThrust x l) ==
       match outcome l with
       | InFlight => if outOfFuel l then 0 else Qmin 100 (Qmax 0 x)
       | _ => 0
       end).
Proof.
  intros H. specialize (H 50 (newLunarLander 0 1000 50 0 5)).
  vm_compute in H. discriminate H.
Qed.

(** C6, amended.  For every [x] and every lander, [setThrust x] stores
    [min(100, max(0, x))], except that it stores 0 when [fuel <= 0] or when
    the outcome is not InFlight; the function is total, so no value is
    rejected. *)
Theorem setThrust_stores (x : Q) (l : LunarLander) :
  thrust (setThrust x l) ==
  match outcome l with
  | InFlight => if Qleb (fuel l) 0 then 0 else Qmin 100 (Qmax 0 x)
  | _ => 0
  end.
Proof.
  unfold setThrust, outcome.
  destruct (landed l); simpl; [reflexivity|].
  destruct (crashed l); simpl; [reflexivity|].
  destruct (Qleb (fuel l) 0); [reflexivity|].
  destruct (Q.min_spec 100 x) as [[? E1] | [? E1]],
           (Q.max_spec 0 x) as [[? E2] | [? E2]],
           (Q.max_spec 0 (Qmin 100 x)) as [[? E3] | [? E3]],
           (Q.min_spec 100 (Qmax 0 x)) as [[? E4] | [? E4]]; lra.
Qed.

(** C9, as stated, fails: a line holding a single space is not empty and
    does not parse to a number, yet no notice is printed. *)
Lemma blank_line_counterexample :
  ~ (forall (answer : jsstring) (m : Mission),
       flying m = true ->
       answer <> [] -> parseInt answer (Some 10%Z) = None ->
       console (handleAnswer answer m) = console m ++ [invalidInputNotice]).
Proof.
  intros H.
  specialize (H (code_units " ")
                (mkMission (newLunarLander 0 1000 50 1200 5) true false [])).
  assert (Hc := H eq_refl ltac:(discriminate) eq_refl).
  discriminate Hc.
Qed.

(** C9, amended.  For every pending thrust command and every input line
    handled while the mission is flying: if the line parses to a number,
    the command is updated through [setThrust] and nothing is printed; if
    it does not parse and is not blank (something is left after trimming
    white space), the notice is printed and the command is unchanged; if it
    does not parse and is blank -- in particular if it is empty -- nothing
    is printed and nothing changes. *)
Theorem handleAnswer_cases (answer : jsstring) (m : Mission) :
  flying m = true ->
  (forall n, parseInt answer (Some 10%Z) = Some n ->
     handleAnswer answer m = set_lander (setThrust n (lander m)) m /\
     console (handleAnswer answer m) = console m) /\
  (parseInt answer (Some 10%Z) = None -> trim answer <> [] ->
     handleAnswer answer m = console_log invalidInputNotice m /\
     lander (handleAnswer answer m) = lander m /\
     console (handleAnswer answer m) = console m ++ [invalidInputNotice]) /\
  (parseInt answer (Some 10%Z) = None -> trim answer = [] ->
     handleAnswer answer m = m) /\
  (answer = [] -> handleAnswer answer m = m).
Proof.
  intros Hfly. unfold flying in Hfly.
  apply andb_true_iff in Hfly. destruct Hfly as [Hrun Hopen].
  apply negb_true_iff in Hopen.
  assert (Hguard : negb (gameRunning m) || rlClosed m = false)
    by (now rewrite Hrun, Hopen).
  unfold handleAnswer. rewrite Hguard. repeat apply conj.
  - intros n ->. now split.
  - intros -> Hblank. destruct (trim answer); [congruence|]. now repeat split.
  - now intros -> ->.
  - now intros ->.
Qed.

Lemma handleAnswer_cases_witness :
  let m := mkMission (newLunarLander 0 1000 50 1200 5) true false [] in
  flying m = true /\
  thrust (lander (handleAnswer (code_units "75") m)) = 75 /\
  console (handleAnswer (code_units "abc") m) = [invalidInputNotice] /\
  thrust (lander (handleAnswer (code_units "abc") m)) = 0 /\
  handleAnswer (code_units "   ") m = m /\
  handleAnswer [] m = m.
Proof.
  intros m.
  assert (Hfly : flying m = true) by reflexivity.
  destruct (handleAnswer_cases (code_units "75") m Hfly) as (H1 & _).
  destruct (handleAnswer_cases (code_units "abc") m Hfly) as (_ & H2 & _).
  destruct (handleAnswer_cases (code_units "   ") m Hfly) as (_ & _ & H3 & _).
  destruct (handleAnswer_cases [] m Hfly) as (_ & _ & _ & H4).
  destruct (H1 75 eq_refl) as [H1a _].
  destruct H2 as (_ & H2a & H2b); [reflexivity | discriminate |].
  repeat apply conj.
  - exact Hfly.
  - rewrite H1a. reflexivity.
  - exact H2b.
  - rewrite H2a. reflexivity.
  - apply H3; reflexivity.
  - apply H4; reflexivity.
Defined.

(** ** The first version of the game differs

    The turn-based script is not the simulator specified above.  These
    facts record where it behaves differently. *)

(** Its landing limit is strict: touching down at exactly 5 m/s is a
    crash. *)
Lemma legacy_limit_is_strict :
  let l := Legacy.mkLunarLander 5 3.375 1200 0 1.625 false in
  let '(l', gameOver, printed) := Legacy.turn (Some (code_units "0")) l in
  Legacy.velocity l' == 5 /\ gameOver = true /\
  printed = [Legacy.ContactLight; Legacy.CrashTooFast].
Proof. vm_compute. repeat apply conj; reflexivity. Qed.

(** Its thrust power is 0.1 and it has no [dt]: from altitude 5 at rest with
    fuel 1000, a turn at full thrust ends at velocity -8.375 and altitude
    13.375. *)
Lemma legacy_full_thrust :
  let l := Legacy.mkLunarLander 5 0 1000 0 1.625 false in
  let '(l', gameOver, printed) := Legacy.turn (Some (code_units "100")) l in
  Legacy.velocity l' == -8.375 /\ Legacy.altitude l' == 13.375 /\
  gameOver = false.
Proof. vm_compute. repeat apply conj; reflexivity. Qed.

(** Every turn overwrites the thrust: input that does not parse sets it to
    0 and prints no notice. *)
Lemma legacy_input_resets_thrust :
  let l := Legacy.set_thrust 40 Legacy.newLunarLander in
  let '(l', gameOver, printed) := Legacy.turn (Some (code_units "abc")) l in
  Legacy.thrust l' = 0 /\ printed = [].
Proof. vm_compute. repeat apply conj; reflexivity. Qed.

(** * Further properties of the lander *)

Lemma updatePhysics_aloft (now : Z) (l : LunarLander) :
  outcome l = InFlight ->
  0 < altitude (flightStep (elapsed now l) (set_lastUpdateTime now l)) ->
  updatePhysics now l = flightStep (elapsed now l) (set_lastUpdateTime now l).
Proof.
  intros Ho Ha. rewrite updatePhysics_inflight by assumption.
  now apply touchdown_aloft.
Qed.

Lemma flightStep_outcome (dt : Q) (l : LunarLander) :
  outcome (flightStep dt l) = outcome l.
Proof.
  destruct (flightStep_frame dt l) as (_ & _ & _ & _ & Hl & Hc & _).
  unfold outcome. now rewrite Hl, Hc.
Qed.

Lemma touchdown_contact_terminal (l : LunarLander) :
  altitude l <= 0 -> outcome (touchdown l) <> InFlight.
Proof.
  intros Ha. apply outcome_terminal.
  destruct (touchdown_contact l Ha) as (_ & _ & _ & _ & _ & _ & _ & _ & HL & HC).
  destruct (Qlt_le_dec (safeLandingSpeed l) (velocity l)) as [H | H].
  - destruct (HC H) as [-> _]. apply orb_true_r.
  - destruct (HL H) as [-> _]. reflexivity.
Qed.

Lemma updatePhysics_contact_iff (now : Z) (l : LunarLander) :
  outcome l = InFlight ->
  (outcome (updatePhysics now l) = InFlight <->
   0 < altitude (flightStep (elapsed now l) (set_lastUpdateTime now l))).
Proof.
  intros Ho. set (atCheck := flightStep _ _). split.
  - intros Hin. destruct (Qlt_le_dec 0 (altitude atCheck)) as [H | H]; [assumption|].
    exfalso. rewrite updatePhysics_inflight in Hin by assumption.
    now apply (touchdown_contact_terminal atCheck H).
  - intros Ha. rewrite updatePhysics_aloft by assumption.
    unfold atCheck. rewrite flightStep_outcome. exact Ho.
Qed.

(** X1.  The outcome of a lander in flight changes only on contact: after
    [updatePhysics] the lander is still in flight exactly when the altitude
    computed by the step is positive, and then nothing but the flight
    update happened ([impactVelocity] stays as it was). *)
Theorem outcome_changes_on_contact (now : Z) (l : LunarLander) :
  outcome l = InFlight ->
  let atCheck := flightStep (elapsed now l) (set_lastUpdateTime now l) in
  let l' := updatePhysics now l in
  (outcome l' = InFlight <-> 0 < altitude atCheck) /\
  (0 < altitude atCheck -> l' = atCheck /\ impactVelocity l' = impactVelocity l).
Proof.
  intros Ho atCheck l'. subst l'. split.
  - now apply updatePhysics_contact_iff.
  - intros Ha. rewrite updatePhysics_aloft by assumption. split; [reflexivity|].
    now destruct (flightStep_frame (elapsed now l) (set_lastUpdateTime now l))
      as (_ & _ & _ & _ & _ & _ & _ & Hi).
Qed.

Lemma outcome_changes_on_contact_witness :
  let l := newLunarLander 0 1000 50 1200 5 in
  outcome l = InFlight /\
  outcome (updatePhysics 1000 l) = InFlight /\
  impactVelocity (updatePhysics 1000 l) = None.
Proof.
  intros l.
  assert (Ho : outcome l = InFlight) by reflexivity.
  destruct (outcome_changes_on_contact 1000 l Ho) as [[_ H1] H2].
  assert (Ha : 0 < altitude (flightStep (elapsed 1000 l) (set_lastUpdateTime 1000 l)))
    by (vm_compute; reflexivity).
  refine (conj Ho (conj (H1 Ha) _)).
  now destruct (H2 Ha) as [_ ->].
Defined.

Lemma setThrust_outOfFuel (x : Q) (l : LunarLander) :
  outOfFuel (setThrust x l) = outOfFuel l.
Proof. unfold setThrust. now destruct (landed l || crashed l). Qed.

Lemma updatePhysics_outOfFuel (now : Z) (l : LunarLander) :
  outOfFuel l = true -> outOfFuel (updatePhysics now l) = true.
Proof.
  intros H. unfold updatePhysics. destruct (landed l || crashed l); [assumption|].
  unfold physicsStep.
  destruct (touchdown_fuel (flightStep (elapsed now l) (set_lastUpdateTime now l)))
    as (_ & -> & _).
  destruct (flightStep_frame (elapsed now l) (set_lastUpdateTime now l))
    as (_ & -> & _).
  unfold burnFuel. fields.
  destruct (Qgtb (fuel l) 0).
  - destruct (Qleb _ 0); fields; [reflexivity | assumption].
  - rewrite H. fields. assumption.
Qed.

(** X2.  The flag [outOfFuel] is never cleared: once it is set it stays set
    through every run of [updatePhysics] calls, whatever the clock values,
    and through [setThrust]. *)
Theorem outOfFuel_sticky (nows : list Z) (x : Q) (l : LunarLander) :
  outOfFuel l = true ->
  outOfFuel (runTicks nows l) = true /\
  outOfFuel (setThrust x l) = true /\
  outOfFuel (runTicks nows (setThrust x l)) = true.
Proof.
  intros H.
  assert (Hrun : forall ns l0, outOfFuel l0 = true ->
                               outOfFuel (runTicks ns l0) = true).
  { induction ns as [|n ns IH]; intros l0 H0; simpl; [assumption|].
    apply IH. now apply updatePhysics_outOfFuel. }
  repeat apply conj.
  - now apply Hrun.
  - now rewrite setThrust_outOfFuel.
  - apply Hrun. now rewrite setThrust_outOfFuel.
Qed.

Lemma outOfFuel_sticky_witness :
  let l := updatePhysics 1000 (setThrust 100 (newLunarLander 0 1000 50 5 5)) in
  outOfFuel l = true /\
  outOfFuel (runTicks [2000; 2500; 9000]%Z (setThrust 80 l)) = true.
Proof.
  intros l.
  assert (H : outOfFuel l = true) by (vm_compute; reflexivity).
  destruct (outOfFuel_sticky [2000; 2500; 9000]%Z 80 l H) as (_ & _ & H3).
  exact (conj H H3).
Defined.

(** X3.  A lander that was above the ground, its altitude a binary64
    number, and touches down in a call with positive [dt] records a positive
    (downward) impact velocity. *)
Theorem impact_velocity_downward (now : Z) (l : LunarLander) :
  outcome l = InFlight -> 0 < altitude l -> isDouble (altitude l) ->
  0 < elapsed now l ->
  outcome (updatePhysics now l) <> InFlight ->
  exists iv, impactVelocity (updatePhysics now l) = Some iv /\ 0 < iv.
Proof.
  intros Ho Ha Hd Hdt Hterm.
  set (atCheck := flightStep (elapsed now l) (set_lastUpdateTime now l)).
  assert (Hc : altitude atCheck <= 0).
  { destruct (Qlt_le_dec 0 (altitude atCheck)) as [H | H]; [|assumption].
    exfalso. apply Hterm.
    now apply (updatePhysics_contact_iff now l Ho). }
  exists (velocity atCheck). split.
  - rewrite updatePhysics_inflight by assumption.
    now destruct (touchdown_contact atCheck Hc) as (_ & Hi & _).
  - unfold atCheck in Hc. rewrite flightStep_altitude in Hc. fold atCheck in Hc.
    change (altitude (set_lastUpdateTime now l)) with (altitude l) in Hc.
    destruct (Qlt_le_dec 0 (velocity atCheck)) as [H | H]; [assumption|].
    exfalso.
    assert (Hp : 0 <= (- velocity atCheck) * elapsed now l).
    { apply Qmult_le_0_compat; lra. }
    assert (Hm : mul64 (velocity atCheck) (elapsed now l) <= 0).
    { apply round64_nonpos. lra. }
    assert (Hge : altitude l <=
                  sub64 (altitude l)
                    (mul64 (velocity atCheck) (elapsed now l))).
    { apply round64_ge; [assumption | lra]. }
    lra.
Qed.

Lemma impact_velocity_downward_witness :
  let l := newLunarLander 0 10 50 0 5 in
  outcome l = InFlight /\ 0 < altitude l /\ isDouble (altitude l) /\
  0 < elapsed 1000 l /\
  outcome (updatePhysics 1000 l) = Crashed /\
  exists iv, impactVelocity (updatePhysics 1000 l) = Some iv /\ 0 < iv.
Proof.
  intros l.
  assert (Ho : outcome l = InFlight) by reflexivity.
  assert (Ha : 0 < altitude l) by reflexivity.
  assert (Hd : isDouble (altitude l)) by (vm_compute; reflexivity).
  assert (Hdt : 0 < elapsed 1000 l) by (vm_compute; reflexivity).
  assert (Hc : outcome (updatePhysics 1000 l) = Crashed)
    by (vm_compute; reflexivity).
  assert (Hterm : outcome (updatePhysics 1000 l) <> InFlight)
    by (rewrite Hc; discriminate).
  exact (conj Ho (conj Ha (conj Hd (conj Hdt (conj Hc
           (impact_velocity_downward 1000 l Ho Ha Hd Hdt Hterm)))))).
Defined.

Lemma runTicks_inflight_head (now : Z) (nows : list Z) (l : LunarLander) :
  outcome (runTicks (now :: nows) l) = InFlight ->
  outcome (updatePhysics now l) = InFlight.
Proof.
  simpl. intros H.
  destruct (outcome (updatePhysics now l)) eqn:E; [reflexivity| |];
    rewrite runTicks_terminal in H by (rewrite E; discriminate);
    congruence.
Qed.

Lemma updatePhysics_inflight_before (now : Z) (l : LunarLander) :
  outcome (updatePhysics now l) = InFlight -> outcome l = InFlight.
Proof.
  intros H. destruct (outcome l) eqn:E; [reflexivity| |];
    rewrite updatePhysics_terminal in H by (rewrite E; discriminate);
    congruence.
Qed.

Lemma GRAVITY_pos : 0 < GRAVITY.
Proof. vm_compute. reflexivity. Qed.

Lemma GRAVITY_net : sub64 GRAVITY 0 = GRAVITY.
Proof. vm_compute. reflexivity. Qed.

Lemma updatePhysics_coast (now : Z) (l : LunarLander) :
  fuel l <= 0 -> outcome (updatePhysics now l) = InFlight ->
  let l' := updatePhysics now l in
  velocity l' = add64 (velocity l) (mul64 GRAVITY (elapsed now l)) /\
  lastUpdateTime l' = now /\ fuel l' = fuel l.
Proof.
  intros Hf Hin. simpl.
  pose proof (updatePhysics_inflight_before now l Hin) as Ho.
  pose proof (proj1 (updatePhysics_contact_iff now l Ho) Hin) as Ha.
  rewrite updatePhysics_aloft by assumption.
  set (l0 := set_lastUpdateTime now l).
  destruct (flightStep_frame (elapsed now l) l0) as (Hfu & _ & _ & _ & _ & _ & Ht & _).
  destruct (burnFuel_empty (elapsed now l) l0 Hf) as (Hfe & _).
  repeat apply conj.
  - rewrite flightStep_velocity, burnFuel_thrustAccel.
    change (fuel l0) with (fuel l). change (velocity l0) with (velocity l).
    apply Qgtb_false in Hf. rewrite Hf. now rewrite GRAVITY_net.
  - exact Ht.
  - rewrite Hfu. exact Hfe.
Qed.

Lemma last_cons_default (ns : list Z) :
  forall a d : Z, last (a :: ns) d = last ns a.
Proof.
  induction ns as [|z ns IH]; intros a d; [reflexivity|].
  change (last (a :: z :: ns) d) with (last (z :: ns) d).
  now rewrite !IH.
Qed.

Lemma runTicks_coast (nows : list Z) :
  forall l, fuel l <= 0 -> isDouble (velocity l) -> advancing nows l ->
            outcome (runTicks nows l) = InFlight ->
  velocity l <= velocity (runTicks nows l) /\
  lastUpdateTime (runTicks nows l) = last nows (lastUpdateTime l) /\
  fuel (runTicks nows l) = fuel l.
Proof.
  induction nows as [|now nows IH]; intros l Hf Hd Hadv Hin.
  - simpl. repeat apply conj; try reflexivity. lra.
  - pose proof (runTicks_inflight_head now nows l Hin) as Hhead.
    destruct (updatePhysics_coast now l Hf Hhead) as (Hv & Ht & Hfu).
    destruct Hadv as [Hdt Hadv].
    change (runTicks (now :: nows) l)
      with (runTicks nows (updatePhysics now l)) in *.
    assert (Hd' : isDouble (velocity (updatePhysics now l)))
      by (rewrite Hv; apply isDouble_round64).
    assert (Hf' : fuel (updatePhysics now l) <= 0) by (now rewrite Hfu).
    destruct (IH _ Hf' Hd' Hadv Hin) as (IH1 & IH2 & IH3).
    pose proof GRAVITY_pos as HG.
    assert (Hg : 0 <= mul64 GRAVITY (elapsed now l)).
    { apply round64_nonneg, Qmult_le_0_compat; lra. }
    assert (Hstep : velocity l <= velocity (updatePhysics now l)).
    { rewrite Hv. apply round64_ge; [assumption | lra]. }
    repeat apply conj.
    + lra.
    + rewrite IH2, Ht. symmetry. apply last_cons_default.
    + now rewrite IH3.
Qed.

(** X4.  Coasting: while a lander without fuel, its velocity a binary64
    number, stays in flight through a run of [updatePhysics] calls with
    positive [dt], its velocity never falls below the initial velocity, the
    fuel is untouched, the time of the last update is the last clock value,
    and a further call that leaves it in flight adds [GRAVITY * dt], rounded,
    to the velocity. *)
Theorem coasting_velocity (nows : list Z) (l : LunarLander) :
  fuel l <= 0 -> isDouble (velocity l) -> advancing nows l ->
  outcome (runTicks nows l) = InFlight ->
  let l' := runTicks nows l in
  velocity l <= velocity l' /\
  lastUpdateTime l' = last nows (lastUpdateTime l) /\
  fuel l' = fuel l /\
  (forall now, outcome (updatePhysics now l') = InFlight ->
     velocity (updatePhysics now l') =
     add64 (velocity l') (mul64 GRAVITY (elapsed now l'))).
Proof.
  intros Hf Hd Hadv Hin l'.
  destruct (runTicks_coast nows l Hf Hd Hadv Hin) as (H1 & H2 & H3).
  repeat apply conj; try assumption.
  intros now Hnow. apply updatePhysics_coast; [|assumption].
  unfold l'. now rewrite H3.
Qed.

(** No fuel, altitude 1000, at rest; ticks after 0.4 s, 1 s and 2.5 s. *)
Lemma coasting_velocity_witness :
  let l := newLunarLander 0 1000 0 0 5 in
  fuel l <= 0 /\ isDouble (velocity l) /\
  advancing [400; 1000; 2500]%Z l /\
  outcome (runTicks [400; 1000; 2500]%Z l) = InFlight /\
  velocity l <= velocity (runTicks [400; 1000; 2500]%Z l) /\
  lastUpdateTime (runTicks [400; 1000; 2500]%Z l) = 2500%Z.
Proof.
  intros l.
  assert (Hf : fuel l <= 0) by (vm_compute; discriminate).
  assert (Hd : isDouble (velocity l)) by (vm_compute; reflexivity).
  assert (Hadv : advancing [400; 1000; 2500]%Z l)
    by (vm_compute; repeat apply conj; reflexivity || exact I).
  assert (Hin : outcome (runTicks [400; 1000; 2500]%Z l) = InFlight)
    by (vm_compute; reflexivity).
  destruct (coasting_velocity [400; 1000; 2500]%Z l Hf Hd Hadv Hin)
    as (H1 & H2 & _).
  exact (conj Hf (conj Hd (conj Hadv (conj Hin (conj H1 H2))))).
Defined.

(** The velocity reached depends on how the time is cut into ticks: three
    calls 100 ms apart give 0.48750000000000004, one call after 300 ms
    gives 0.4875. *)
Lemma coasting_ticks_example :
  let l := newLunarLander 0 1000 0 0 5 in
  velocity (runTicks [300]%Z l) = round64 0.4875 /\
  velocity (runTicks [100; 200; 300]%Z l) == round64 0.4875 + pow2 (-54).
Proof. vm_compute. split; reflexivity. Qed.

(** ** What holds in every mission state *)

Lemma setThrust_as_assignment (x : Q) (l : LunarLander) :
  setThrust x l = set_thrust (thrust (setThrust x l)) l.
Proof. unfold setThrust. now destruct (landed l || crashed l). Qed.

Lemma setThrust_off (x : Q) (l : LunarLander) :
  outcome l <> InFlight \/ fuel l <= 0 -> thrust (setThrust x l) = 0.
Proof.
  intros H. unfold setThrust.
  destruct (landed l || crashed l) eqn:E; [reflexivity|].
  destruct H as [H | H].
  - apply outcome_terminal in H. congruence.
  - apply Qleb_true in H. now rewrite H.
Qed.

Lemma burnFuel_no_fuel_no_thrust (dt : Q) (l : LunarLander) :
  (fuel l <= 0 -> thrust l = 0) ->
  let l' := snd (burnFuel dt l) in
  fuel l' <= 0 -> thrust l' = 0.
Proof.
  intros Hinv. simpl.
  destruct (Qlt_le_dec 0 (fuel l)) as [Hpos | Hemp].
  - destruct (Qlt_le_dec 0
                (sub64 (fuel l)
                   (mul64 (mul64 (thrust l) FUEL_CONSUMPTION_RATE) dt)))
      as [Hkeep | Hcut].
    + destruct (burnFuel_keep dt l Hpos Hkeep) as (-> & _). intros H. lra.
    + now destruct (burnFuel_cut dt l Hpos Hcut) as (_ & _ & ->).
  - destruct (burnFuel_empty dt l Hemp) as (_ & _ & H0 & H1). intros _.
    destruct (outOfFuel l); [rewrite H1 | rewrite H0]; auto.
Qed.

Lemma reachable_no_fuel_no_thrust (l : LunarLander) :
  reachable l -> fuel l <= 0 -> thrust l = 0.
Proof.
  induction 1 as [now a v f s Ha Hf Hs | x l _ IH | now l _ IH Hdt | now l _ IH].
  - reflexivity.
  - rewrite (setThrust_as_assignment x l). simpl. intros Hf.
    apply setThrust_off. now right.
  - unfold updatePhysics. destruct (landed l || crashed l); [assumption|].
    unfold physicsStep. set (l0 := set_lastUpdateTime now l).
    destruct (touchdown_fuel (flightStep (elapsed now l) l0))
      as (-> & _ & _ & _ & [-> | ->]); [reflexivity|].
    destruct (flightStep_frame (elapsed now l) l0) as (-> & _ & -> & _).
    now apply burnFuel_no_fuel_no_thrust.
  - assumption.
Qed.

(** The record kept of a touchdown. *)
Lemma reachable_touchdown_record (l : LunarLander) :
  reachable l ->
  (outcome l = InFlight -> impactVelocity l = None) /\
  (outcome l <> InFlight ->
   altitude l = 0 /\ velocity l = 0 /\ thrust l = 0 /\
   exists iv, impactVelocity l = Some iv /\
              (landed l = true -> iv <= safeLandingSpeed l) /\
              (crashed l = true -> safeLandingSpeed l < iv)).
Proof.
  induction 1 as [now a v f s Ha Hf Hs | x l Hr IH | now l Hr IH Hdt | now l _ IH].
  - split; [reflexivity|]. intros H. now contradiction H.
  - rewrite (setThrust_as_assignment x l).
    destruct IH as [IH1 IH2]. split; [exact IH1|].
    intros H. destruct (IH2 H) as (Ha & Hv & _ & Hiv).
    repeat apply conj; try assumption.
    simpl. apply setThrust_off. now left.
  - destruct IH as [IH1 IH2].
    destruct (outcome l) eqn:Eo;
      try (rewrite updatePhysics_terminal by (rewrite Eo; discriminate);
           rewrite Eo; split; [discriminate | assumption]).
    set (atCheck := flightStep (elapsed now l) (set_lastUpdateTime now l)).
    destruct (flightStep_frame (elapsed now l) (set_lastUpdateTime now l))
      as (_ & _ & _ & Hs & Hl & Hc & _ & Hi).
    fold atCheck in Hs, Hl, Hc, Hi. simpl in Hs, Hl, Hc, Hi.
    pose proof Eo as Ho.
    apply outcome_InFlight, orb_false_elim in Eo. destruct Eo as [El Ec].
    destruct (Qlt_le_dec 0 (altitude atCheck)) as [Hup | Hdown].
    + rewrite updatePhysics_aloft by assumption.
      fold atCheck. split.
      * intros _. rewrite Hi. now apply IH1.
      * intros H. exfalso. apply H. apply outcome_InFlight.
        now rewrite Hl, Hc, El, Ec.
    + rewrite updatePhysics_inflight by assumption.
      fold atCheck.
      pose proof (touchdown_contact_terminal atCheck Hdown) as Hterm.
      destruct (touchdown_contact atCheck Hdown)
        as (Ha & Hiv & Hv & Ht & _ & _ & Hs' & _ & HL & HC).
      split; [intros H; now contradiction Hterm|].
      intros _. repeat apply conj; try assumption.
      exists (velocity atCheck). repeat apply conj; [assumption | |].
      * intros Hland. rewrite Hs'.
        destruct (Qlt_le_dec (safeLandingSpeed atCheck) (velocity atCheck))
          as [Hfast | Hslow]; [|assumption].
        destruct (HC Hfast) as [_ Hkeep]. congruence.
      * intros Hcrash. rewrite Hs'.
        destruct (Qlt_le_dec (safeLandingSpeed atCheck) (velocity atCheck))
          as [Hfast | Hslow]; [assumption|].
        destruct (HL Hslow) as [_ Hkeep]. congruence.
  - exact IH.
Qed.

(** X5.  In every mission state (a lander built from validated parameters,
    then any interleaving of [setThrust], [updatePhysics] with a clock that
    does not run backwards, and clock resets): altitude and fuel are not
    negative, the thrust is within 0..100, [landed] and [crashed] are never
    both set, a lander without fuel has thrust 0, and [outOfFuel] implies
    that the fuel is zero and the thrust is 0. *)
Theorem mission_state_invariants (l : LunarLander) :
  reachable l ->
  0 <= altitude l /\ 0 <= fuel l /\
  0 <= thrust l /\ thrust l <= 100 /\
  landed l && crashed l = false /\
  (fuel l <= 0 -> thrust l = 0) /\
  (outOfFuel l = true -> fuel l == 0 /\ thrust l = 0).
Proof.
  intros Hr. pose proof (reachable_wellFormed l Hr) as [Ha Hf [Ht0 Ht1] Ho He].
  pose proof (reachable_no_fuel_no_thrust l Hr) as Hnf.
  repeat apply conj; try assumption.
  intros H. specialize (Ho H). split; [lra | now apply Hnf].
Qed.

(** Fuel 5, thrust request 250, then one second: the fuel is used up. *)
Lemma mission_state_invariants_witness :
  let l := updatePhysics 1000 (setThrust 250 (newLunarLander 0 1000 50 5 5)) in
  reachable l /\ outOfFuel l = true /\ fuel l == 0 /\ thrust l = 0 /\
  0 <= altitude l.
Proof.
  intros l.
  assert (Hr : reachable l).
  { apply reach_updatePhysics; [apply reach_setThrust, reach_new|];
      vm_compute; (reflexivity || discriminate). }
  assert (Ho : outOfFuel l = true) by (vm_compute; reflexivity).
  destruct (mission_state_invariants l Hr) as (Ha & _ & _ & _ & _ & _ & H).
  destruct (H Ho) as [Hf Ht].
  exact (conj Hr (conj Ho (conj Hf (conj Ht Ha)))).
Defined.

(** X6.  In every mission state the touchdown record matches the outcome:
    in flight [impactVelocity] is still [null]; after a landing or a crash
    the altitude, the velocity and the thrust are 0 and [impactVelocity]
    holds a value that is at most [safeLandingSpeed] for a landing and
    above it for a crash. *)
Theorem touchdown_record (l : LunarLander) :
  reachable l ->
  match outcome l with
  | InFlight => impactVelocity l = None
  | Landed =>
      altitude l = 0 /\ velocity l = 0 /\ thrust l = 0 /\
      exists iv, impactVelocity l = Some iv /\ iv <= safeLandingSpeed l
  | Crashed =>
      altitude l = 0 /\ velocity l = 0 /\ thrust l = 0 /\
      exists iv, impactVelocity l = Some iv /\ safeLandingSpeed l < iv
  end.
Proof.
  intros Hr. destruct (reachable_touchdown_record l Hr) as [H1 H2].
  pose proof (wf_exclusive l (reachable_wellFormed l Hr)) as Hex.
  destruct (outcome l) eqn:Eo.
  - now apply H1.
  - destruct H2 as (Ha & Hv & Ht & iv & Hiv & HL & _); [discriminate|].
    repeat apply conj; try assumption. exists iv. split; [assumption|].
    apply HL. unfold outcome in Eo.
    destruct (landed l); [reflexivity|]. destruct (crashed l); discriminate.
  - destruct H2 as (Ha & Hv & Ht & iv & Hiv & _ & HC); [discriminate|].
    repeat apply conj; try assumption. exists iv. split; [assumption|].
    apply HC. unfold outcome in Eo.
    destruct (landed l); [discriminate|]. destruct (crashed l);
      [reflexivity | discriminate].
Qed.

Lemma touchdown_record_witness :
  let l := setThrust 40 (updatePhysics 1000 (newLunarLander 0 10 50 0 5)) in
  reachable l /\ outcome l = Crashed /\
  velocity l = 0 /\ thrust l = 0 /\
  exists iv, impactVelocity l = Some iv /\ safeLandingSpeed l < iv.
Proof.
  intros l.
  assert (Hr : reachable l).
  { apply reach_setThrust, reach_updatePhysics; [apply reach_new|];
      vm_compute; (reflexivity || discriminate). }
  assert (Ho : outcome l = Crashed) by (vm_compute; reflexivity).
  pose proof (touchdown_record l Hr) as H.
  rewrite Ho in H.
  destruct H as (_ & Hv & Ht & Hiv).
  exact (conj Hr (conj Ho (conj Hv (conj Ht Hiv)))).
Defined.

(** ** How thrust requests compose *)

(** X7.  The last thrust request wins: a request replaces the effect of
    the one before it, so requesting the same value twice is the same as
    requesting it once. *)
Theorem setThrust_last_wins (x y : Q) (l : LunarLander) :
  setThrust y (setThrust x l) = setThrust y l /\
  setThrust x (setThrust x l) = setThrust x l.
Proof.
  assert (H : forall a b, setThrust b (setThrust a l) = setThrust b l).
  { intros a b. unfold setThrust.
    destruct (landed l || crashed l) eqn:E; simpl; rewrite E; reflexivity. }
  split; apply H.
Qed.

(** X8.  Whatever the request and the state, the stored thrust is within
    0..100, and a larger request never stores a smaller thrust. *)
Theorem setThrust_bounded_monotone (x y : Q) (l : LunarLander) :
  0 <= thrust (setThrust x l) /\ thrust (setThrust x l) <= 100 /\
  (x <= y -> thrust (setThrust x l) <= thrust (setThrust y l)).
Proof.
  destruct (setThrust_range x l) as [H0 H1].
  repeat apply conj; try assumption.
  intros Hxy. unfold setThrust.
  destruct (landed l || crashed l); simpl; [lra|].
  destruct (Qleb (fuel l) 0); [lra|].
  destruct (Q.min_spec 100 x) as [[? E1] | [? E1]],
           (Q.min_spec 100 y) as [[? E2] | [? E2]],
           (Q.max_spec 0 (Qmin 100 x)) as [[? E3] | [? E3]],
           (Q.max_spec 0 (Qmin 100 y)) as [[? E4] | [? E4]]; lra.
Qed.

(** * Further properties of the pilot input *)

Lemma set_thrust_same (l : LunarLander) : set_thrust (thrust l) l = l.
Proof. now destruct l. Qed.

Lemma handleAnswer_lander (answer : jsstring) (m : Mission) :
  lander (handleAnswer answer m) =
  set_thrust (thrust (lander (handleAnswer answer m))) (lander m).
Proof.
  unfold handleAnswer. destruct (negb (gameRunning m) || rlClosed m).
  - now rewrite set_thrust_same.
  - destruct (parseInt answer (Some 10%Z)).
    + simpl. apply setThrust_as_assignment.
    + destruct (trim answer); simpl; now rewrite set_thrust_same.
Qed.

Lemma handleAnswer_flying (answer : jsstring) (m : Mission) :
  flying (handleAnswer answer m) = flying m.
Proof.
  unfold flying. now destruct (handleAnswer_flags answer m) as [-> ->].
Qed.

Lemma askForThrust_lander (answers : list jsstring) :
  forall m,
    lander (askForThrust answers m) =
    set_thrust (thrust (lander (askForThrust answers m))) (lander m) /\
    gameRunning (askForThrust answers m) = gameRunning m /\
    rlClosed (askForThrust answers m) = rlClosed m.
Proof.
  induction answers as [|a rest IH]; intros m.
  - assert (H : askForThrust [] m = m).
    { simpl. now destruct (gameRunning m), (rlClosed m). }
    rewrite H. now rewrite set_thrust_same.
  - destruct (flying m) eqn:Ef.
    + rewrite askForThrust_step by assumption.
      destruct (IH (handleAnswer a m)) as (Hl & Hg & Hc).
      destruct (handleAnswer_flags a m) as [Hg' Hc'].
      rewrite Hg, Hc, Hg', Hc'. repeat apply conj; try reflexivity.
      rewrite Hl at 1. rewrite (handleAnswer_lander a m). reflexivity.
    + rewrite askForThrust_stopped by assumption.
      now rewrite set_thrust_same.
Qed.

(** X9.  The input loop only ever overwrites the thrust command: after any
    session of answers the lander's altitude, velocity, fuel, [outOfFuel],
    outcome flags, [impactVelocity], safe speed and clock are what they
    were, and so are [gameRunning] and the state of the readline
    interface. *)
Theorem askForThrust_frame (answers : list jsstring) (m : Mission) :
  let m' := askForThrust answers m in
  altitude (lander m') = altitude (lander m) /\
  velocity (lander m') = velocity (lander m) /\
  fuel (lander m') = fuel (lander m) /\
  outOfFuel (lander m') = outOfFuel (lander m) /\
  landed (lander m') = landed (lander m) /\
  crashed (lander m') = crashed (lander m) /\
  impactVelocity (lander m') = impactVelocity (lander m) /\
  safeLandingSpeed (lander m') = safeLandingSpeed (lander m) /\
  lastUpdateTime (lander m') = lastUpdateTime (lander m) /\
  gameRunning m' = gameRunning m /\ rlClosed m' = rlClosed m.
Proof.
  simpl. destruct (askForThrust_lander answers m) as (Hl & Hg & Hc).
  rewrite Hl, Hg, Hc. repeat apply conj; reflexivity.
Qed.

Lemma askForThrust_app (pre post : list jsstring) :
  forall m, askForThrust (pre ++ post) m = askForThrust post (askForThrust pre m).
Proof.
  induction pre as [|a pre IH]; intros m.
  - simpl app. destruct (flying m) eqn:Ef.
    + assert (H : askForThrust [] m = m).
      { simpl. now destruct (gameRunning m), (rlClosed m). }
      now rewrite H.
    + rewrite (askForThrust_stopped [] m Ef).
      reflexivity.
  - simpl app. destruct (flying m) eqn:Ef.
    + rewrite !askForThrust_step by assumption. apply IH.
    + rewrite (askForThrust_stopped (a :: pre ++ post) m Ef).
      rewrite (askForThrust_stopped (a :: pre) m Ef).
      now rewrite (askForThrust_stopped post m Ef).
Qed.

Lemma askForThrust_unparsed (answers : list jsstring) :
  forall m,
    Forall (fun a => parseInt a (Some 10%Z) = None) answers ->
    lander (askForThrust answers m) = lander m.
Proof.
  induction answers as [|a rest IH]; intros m Hall.
  - rewrite (proj1 (askForThrust_lander [] m)). simpl.
    destruct (gameRunning m), (rlClosed m); simpl; apply set_thrust_same.
  - inversion Hall as [|? ? Ha Hrest]; subst.
    destruct (flying m) eqn:Ef.
    + rewrite askForThrust_step by assumption. rewrite IH by assumption.
      unfold handleAnswer. destruct (negb (gameRunning m) || rlClosed m);
        [reflexivity|].
      rewrite Ha. now destruct (trim a).
    + now rewrite askForThrust_stopped.
Qed.

(** X10.  While the mission is flying, the pending thrust command after a
    session of answers is decided by the last answer that parses to a
    number: it is what [setThrust] stores for that number, whatever was
    typed before it and whatever unparsable lines follow it. *)
Theorem last_numeric_answer_wins
    (pre post : list jsstring) (answer : jsstring) (n : Q) (m : Mission) :
  flying m = true ->
  parseInt answer (Some 10%Z) = Some n ->
  Forall (fun a => parseInt a (Some 10%Z) = None) post ->
  lander (askForThrust (pre ++ answer :: post) m) = setThrust n (lander m).
Proof.
  intros Hfly Hn Hpost.
  rewrite askForThrust_app.
  set (m1 := askForThrust pre m).
  destruct (askForThrust_lander pre m) as (Hl & Hg & Hc). fold m1 in Hl, Hg, Hc.
  assert (Hfly1 : flying m1 = true) by (unfold flying; now rewrite Hg, Hc).
  rewrite askForThrust_step by assumption.
  rewrite askForThrust_unparsed by assumption.
  unfold handleAnswer. unfold flying in Hfly1.
  apply andb_true_iff in Hfly1. destruct Hfly1 as [-> Hopen].
  apply negb_true_iff in Hopen. rewrite Hopen. simpl.
  rewrite Hn. simpl. rewrite Hl.
  unfold setThrust. simpl. reflexivity.
Qed.

Lemma last_numeric_answer_wins_witness :
  let m := mkMission (newLunarLander 0 1000 50 1200 5) true false [] in
  flying m = true /\
  thrust (lander (askForThrust
    [code_units "20"; code_units "abc"; code_units "75%"; code_units "";
     code_units "full"] m)) = 75.
Proof.
  intros m.
  assert (Hfly : flying m = true) by reflexivity.
  split; [exact Hfly|].
  assert (Hpost : Forall (fun a => parseInt a (Some 10%Z) = None)
                    [code_units ""; code_units "full"])
    by (repeat constructor; vm_compute; reflexivity).
  assert (Hn : parseInt (code_units "75%") (Some 10%Z) = Some 75)
    by (vm_compute; reflexivity).
  pose proof (last_numeric_answer_wins [code_units "20"; code_units "abc"]
                [code_units ""; code_units "full"] (code_units "75%") 75 m
                Hfly Hn Hpost) as H.
  cbn [app] in H. rewrite H. vm_compute. reflexivity.
Defined.

(** X11.  While the mission is flying, a session of answers prints exactly
    one notice for every answer that neither parses to a number nor is
    blank, and nothing else. *)
Theorem notices_count (answers : list jsstring) (m : Mission) :
  flying m = true ->
  let rejected (a : jsstring) :=
    match parseInt a (Some 10%Z), trim a with
    | None, _ :: _ => true
    | _, _ => false
    end in
  console (askForThrust answers m) =
  console m ++ repeat invalidInputNotice (List.length (filter rejected answers)).
Proof.
  intros Hfly rejected. revert m Hfly.
  induction answers as [|a rest IH]; intros m Hfly.
  - simpl. rewrite app_nil_r.
    now destruct (gameRunning m), (rlClosed m).
  - rewrite askForThrust_step by assumption.
    rewrite IH by (now rewrite handleAnswer_flying).
    pose proof Hfly as Hguard. unfold flying in Hguard.
    apply andb_true_iff in Hguard. destruct Hguard as [Hrun Hopen].
    apply negb_true_iff in Hopen.
    unfold handleAnswer. rewrite Hrun, Hopen. simpl.
    unfold rejected at 2.
    destruct (parseInt a (Some 10%Z)); [reflexivity|].
    destruct (trim a); simpl; [reflexivity|].
    now rewrite <- app_assoc.
Qed.

Lemma notices_count_witness :
  let m := mkMission (newLunarLander 0 1000 50 1200 5) true false [] in
  flying m = true /\
  console (askForThrust
    [code_units "abc"; code_units "  "; code_units "50"; code_units "--3"] m)
  = [invalidInputNotice; invalidInputNotice].
Proof.
  intros m.
  assert (Hfly : flying m = true) by reflexivity.
  split; [exact Hfly|].
  rewrite (notices_count
    [code_units "abc"; code_units "  "; code_units "50"; code_units "--3"]
    m Hfly).
  vm_compute. reflexivity.
Defined.

(** * Properties of the parameter entry *)

Lemma trimStart_all_white (s : jsstring) :
  trimStart s = [] -> forallb isWhiteSpace s = true.
Proof.
  induction s as [|c s IH]; simpl; [reflexivity|].
  destruct (isWhiteSpace c); [exact IH | discriminate].
Qed.

Lemma trimStart_head (s : jsstring) (c : N) (rest : jsstring) :
  trimStart s = c :: rest -> isWhiteSpace c = false.
Proof.
  induction s as [|d s IH]; simpl; [discriminate|].
  destruct (isWhiteSpace d) eqn:E; [exact IH|].
  intros H. injection H as -> _. exact E.
Qed.

Lemma trim_blank (s : jsstring) : trim s = [] -> trimStart s = [].
Proof.
  unfold trim, trimEnd. intros H.
  destruct (trimStart s) as [|c rest] eqn:E; [reflexivity|].
  exfalso.
  assert (Hrev : trimStart (rev (c :: rest)) = []).
  { apply (f_equal (@rev N)) in H. now rewrite rev_involutive in H. }
  apply trimStart_all_white in Hrev.
  rewrite forallb_forall in Hrev.
  specialize (Hrev c). rewrite <- in_rev in Hrev.
  rewrite (trimStart_head s c rest E) in Hrev.
  specialize (Hrev (or_introl eq_refl)). discriminate.
Qed.

(** The range of [parseFloat]: a numeral beyond the largest binary64 number
    by half a unit in the last place or more is an infinity, one below half
    the smallest binary64 number is 0, and a decimal fraction is rounded. *)
Lemma parseFloat_range_examples :
  parseFloat (code_units "1e400") = PosInfinity /\
  parseFloat (code_units "-1e400") = NegInfinity /\
  parseFloat (code_units "1e-400") = Finite 0 /\
  parseFloat (code_units "0.1") =
    Finite (3602879701896397 # 36028797018963968) /\
  parseFloat (code_units "1.7976931348623158e308") =
    Finite (inject_Z (2 ^ 1024 - 2 ^ 971)) /\
  parseFloat (code_units "1.7976931348623159e308") = PosInfinity.
Proof. vm_compute. repeat apply conj; reflexivity. Qed.

Lemma parseFloat_blank (s : jsstring) : trim s = [] -> parseFloat s = NaN.
Proof.
  intros H. apply trim_blank in H. unfold parseFloat. now rewrite H.
Qed.

Lemma getNumericInput_cases (answer prompt : jsstring) (d : Q) :
  let result := getNumericInput answer prompt d in
  let value := parseFloat answer in
  let nonNegative :=
    includes prompt (code_units "Altitude")
    || includes prompt (code_units "Fuel") in
  let positive := includes prompt (code_units "Safe Landing Speed") in
  (value = NaN /\ result = (Finite d, [InvalidInputUsingDefault d])) \/
  (value <> NaN /\ nonNegative = true /\ ltZero value = true /\
   result = (Finite d, [CannotBeNegativeUsingDefault d])) \/
  (value <> NaN /\ (nonNegative = true -> ltZero value = false) /\
   positive = true /\ leZero value = true /\
   result = (Finite d, [SafeSpeedMustBePositiveUsingDefault d])) \/
  (value <> NaN /\ (nonNegative = true -> ltZero value = false) /\
   (positive = true -> leZero value = false) /\
   result = (value, [])).
Proof.
  simpl. unfold getNumericInput.
  destruct (trim answer) as [|c rest] eqn:Et.
  - left. rewrite (parseFloat_blank answer Et). now split.
  - rewrite orb_false_r. set (v := parseFloat answer).
    destruct (match v with NaN => true | _ => false end) eqn:Enan.
    { left. split; [|reflexivity]. destruct v; (discriminate || reflexivity). }
    assert (Hv : v <> NaN) by (intros E; rewrite E in Enan; discriminate).
    right.
    destruct (includes prompt (code_units "Altitude")
              || includes prompt (code_units "Fuel")) eqn:En;
      cbn [andb];
      [destruct (ltZero v) eqn:El;
       [left; repeat apply conj; auto | right] | right];
      (destruct (includes prompt (code_units "Safe Landing Speed")) eqn:Ep;
       cbn [andb]; [destruct (leZero v) eqn:Ez; [left | right] | right]);
      repeat apply conj; try assumption; try reflexivity;
      try (intros; assumption); intros; discriminate.
Qed.

(** X12.  A blank answer (empty, or white space only) is never a number
    for [parseFloat]: in [getNumericInput] the test [answer.trim() === '']
    adds nothing to [isNaN(value)], and the fallback to the default with
    the "Invalid input" notice is taken exactly when the answer does not
    start with a number. *)
Theorem invalid_answer_iff_not_a_number (answer prompt : jsstring) (d : Q) :
  (trim answer = [] -> parseFloat answer = NaN) /\
  (parseFloat answer = NaN <->
   getNumericInput answer prompt d = (Finite d, [InvalidInputUsingDefault d])).
Proof.
  split; [apply parseFloat_blank|]. split.
  - intros H. destruct (getNumericInput_cases answer prompt d)
      as [[_ Hr] | [[Hv _] | [[Hv _] | [Hv _]]]];
      [exact Hr | | |]; now contradiction Hv.
  - intros H. destruct (getNumericInput_cases answer prompt d)
      as [[Hv _] | [(_ & _ & _ & Hr) | [(_ & _ & _ & _ & Hr) | (Hv & _ & _ & Hr)]]];
      [exact Hv | | |]; rewrite Hr in H; discriminate.
Qed.

(** X13.  [getNumericInput] never returns [NaN]; it returns either the
    number parsed from the answer, printing nothing, or the default,
    printing exactly one notice.  For a prompt that mentions neither
    "Altitude", "Fuel" nor "Safe Landing Speed" every parsed number is
    returned as typed, negative ones included. *)
Theorem getNumericInput_result (answer prompt : jsstring) (d : Q) :
  let (value, notices) := getNumericInput answer prompt d in
  value <> NaN /\
  ((value = parseFloat answer /\ notices = []) \/
   (value = Finite d /\ List.length notices = 1%nat)) /\
  (includes prompt (code_units "Altitude") = false ->
   includes prompt (code_units "Fuel") = false ->
   includes prompt (code_units "Safe Landing Speed") = false ->
   parseFloat answer <> NaN ->
   value = parseFloat answer /\ notices = []).
Proof.
  destruct (getNumericInput_cases answer prompt d)
    as [[Hv Hr] | [(Hv & Hn & _ & Hr) | [(Hv & _ & Hp & _ & Hr) | (Hv & _ & _ & Hr)]]];
    simpl in Hr; rewrite Hr; repeat apply conj; try discriminate;
    try (right; now split); try (left; now split); try assumption;
    intros Ha Hf Hs Hnum; try (now contradiction Hnum); try (now split).
  - rewrite Ha, Hf in Hn. discriminate.
  - rewrite Hs in Hp. discriminate.
Qed.

Lemma getNumericInput_guarantee (answer prompt : jsstring) (d : Q) :
  let result := getNumericInput answer prompt d in
  fst result <> NaN /\
  (includes prompt (code_units "Altitude")
   || includes prompt (code_units "Fuel") = true ->
   0 <= d -> ltZero (fst result) = false) /\
  (includes prompt (code_units "Safe Landing Speed") = true ->
   0 < d -> leZero (fst result) = false) /\
  (List.length (snd result) <= 1)%nat.
Proof.
  simpl.
  destruct (getNumericInput_cases answer prompt d)
    as [[Hv Hr] | [(Hv & Hn & _ & Hr) | [(Hv & _ & Hp & _ & Hr) | (Hv & Hn & Hp & Hr)]]];
    simpl in Hr; rewrite Hr; simpl; repeat apply conj;
    try discriminate; try assumption; try lia;
    intros Hincl Hd;
    try (apply Hn; assumption); try (apply Hp; assumption);
    try (unfold Qltb; rewrite negb_false_iff; now apply Qle_bool_iff);
    now apply Qleb_false.
Qed.

(** X14.  For a prompt that mentions "Altitude" or "Fuel" and a default
    that is not negative, the value returned is never negative; for a
    prompt that mentions "Safe Landing Speed" and a positive default, the
    value returned is always positive. *)
Theorem getNumericInput_validates (answer prompt : jsstring) (d : Q) :
  let value := fst (getNumericInput answer prompt d) in
  (includes prompt (code_units "Altitude")
   || includes prompt (code_units "Fuel") = true ->
   0 <= d -> ltZero value = false) /\
  (includes prompt (code_units "Safe Landing Speed") = true ->
   0 < d -> leZero value = false).
Proof.
  simpl. destruct (getNumericInput_guarantee answer prompt d) as (_ & H1 & H2 & _).
  now split.
Qed.

Lemma getNumericInput_validates_witness :
  fst (getNumericInput (code_units "-250")
         (code_units "Initial Altitude (m)") DEFAULT_INITIAL_ALTITUDE)
  = Finite 1000 /\
  fst (getNumericInput (code_units "0")
         (code_units "Maximum Safe Landing Speed (m/s)")
         DEFAULT_SAFE_LANDING_SPEED)
  = Finite 5 /\
  ltZero (fst (getNumericInput (code_units "-250")
                 (code_units "Initial Altitude (m)") DEFAULT_INITIAL_ALTITUDE))
  = false /\
  leZero (fst (getNumericInput (code_units "0")
                 (code_units "Maximum Safe Landing Speed (m/s)")
                 DEFAULT_SAFE_LANDING_SPEED))
  = false.
Proof.
  repeat apply conj.
  - vm_compute. reflexivity.
  - vm_compute. reflexivity.
  - apply (proj1 (getNumericInput_validates (code_units "-250")
             (code_units "Initial Altitude (m)") DEFAULT_INITIAL_ALTITUDE));
      [vm_compute; reflexivity | vm_compute; discriminate].
  - apply (proj2 (getNumericInput_validates (code_units "0")
             (code_units "Maximum Safe Landing Speed (m/s)")
             DEFAULT_SAFE_LANDING_SPEED)); vm_compute; reflexivity.
Defined.

Lemma getInitialParameters_guarantee (a1 a2 a3 a4 : jsstring) :
  let result := getInitialParameters (a1, a2, a3, a4) in
  let p := fst result in
  paramAltitude p <> NaN /\ ltZero (paramAltitude p) = false /\
  paramVelocity p <> NaN /\
  paramFuel p <> NaN /\ ltZero (paramFuel p) = false /\
  paramSafeSpeed p <> NaN /\ leZero (paramSafeSpeed p) = false /\
  (List.length (snd result) <= 4)%nat.
Proof.
  simpl. unfold getInitialParameters.
  pose proof (getNumericInput_guarantee a1 (code_units "Initial Altitude (m)")
                DEFAULT_INITIAL_ALTITUDE) as (A1 & A2 & _ & A4).
  pose proof (getNumericInput_guarantee a2
                (code_units "Initial Downward Velocity (m/s)")
                DEFAULT_INITIAL_VELOCITY) as (V1 & _ & _ & V4).
  pose proof (getNumericInput_guarantee a3 (code_units "Initial Fuel (kg)")
                DEFAULT_INITIAL_FUEL) as (F1 & F2 & _ & F4).
  pose proof (getNumericInput_guarantee a4
                (code_units "Maximum Safe Landing Speed (m/s)")
                DEFAULT_SAFE_LANDING_SPEED) as (S1 & _ & S3 & S4).
  destruct (getNumericInput a1 _ _) as [altitude n1].
  destruct (getNumericInput a2 _ _) as [velocity n2].
  destruct (getNumericInput a3 _ _) as [fuel n3].
  destruct (getNumericInput a4 _ _) as [speed n4].
  simpl in *. repeat apply conj; try assumption.
  - apply A2; [vm_compute; reflexivity | vm_compute; discriminate].
  - apply F2; [vm_compute; reflexivity | vm_compute; discriminate].
  - apply S3; vm_compute; reflexivity.
  - rewrite !length_app. lia.
Qed.

(** X15.  Whatever the pilot answers to the four setup questions, none of
    the mission parameters is [NaN], the altitude and the fuel are not
    negative, the safe landing speed is positive, and at most four notices
    are printed. *)
Theorem getInitialParameters_valid (a1 a2 a3 a4 : jsstring) :
  let (p, notices) := getInitialParameters (a1, a2, a3, a4) in
  paramAltitude p <> NaN /\ ltZero (paramAltitude p) = false /\
  paramVelocity p <> NaN /\
  paramFuel p <> NaN /\ ltZero (paramFuel p) = false /\
  paramSafeSpeed p <> NaN /\ leZero (paramSafeSpeed p) = false /\
  (List.length notices <= 4)%nat.
Proof.
  pose proof (getInitialParameters_guarantee a1 a2 a3 a4) as H.
  now destruct (getInitialParameters (a1, a2, a3, a4)).
Qed.

(** X16.  Four blank answers (Enter alone, or white space) select the
    defaults 1000 m, 50 m/s, 1200 kg and 5 m/s, and each of them prints
    the "Invalid input" notice. *)
Theorem blank_answers_use_defaults (a1 a2 a3 a4 : jsstring) :
  trim a1 = [] -> trim a2 = [] -> trim a3 = [] -> trim a4 = [] ->
  getInitialParameters (a1, a2, a3, a4) =
  (mkMissionParameters (Finite 1000) (Finite 50) (Finite 1200) (Finite 5),
   [InvalidInputUsingDefault 1000; InvalidInputUsingDefault 50;
    InvalidInputUsingDefault 1200; InvalidInputUsingDefault 5]).
Proof.
  intros H1 H2 H3 H4. unfold getInitialParameters, getNumericInput.
  rewrite (parseFloat_blank a1 H1), (parseFloat_blank a2 H2),
          (parseFloat_blank a3 H3), (parseFloat_blank a4 H4).
  reflexivity.
Qed.

Lemma blank_answers_use_defaults_witness :
  getInitialParameters ([], code_units " ", [], code_units "  ") =
  (mkMissionParameters (Finite 1000) (Finite 50) (Finite 1200) (Finite 5),
   [InvalidInputUsingDefault 1000; InvalidInputUsingDefault 50;
    InvalidInputUsingDefault 1200; InvalidInputUsingDefault 5]).
Proof.
  apply (blank_answers_use_defaults [] (code_units " ") [] (code_units "  "));
    vm_compute; reflexivity.
Defined.

(** X17.  Whenever the four answers give finite parameters, the lander the
    mission starts with is a mission state: in flight, thrust 0, altitude
    and fuel not negative, a positive safe landing speed, [outOfFuel]
    clear and no impact velocity recorded. *)
Theorem mission_start_state (now : Z) (a1 a2 a3 a4 : jsstring) (l : LunarLander) :
  missionLander now (fst (getInitialParameters (a1, a2, a3, a4))) = Some l ->
  reachable l /\ outcome l = InFlight /\ thrust l = 0 /\
  0 <= altitude l /\ 0 <= fuel l /\ 0 < safeLandingSpeed l /\
  outOfFuel l = false /\ impactVelocity l = None.
Proof.
  intros H.
  destruct (getInitialParameters_guarantee a1 a2 a3 a4)
    as (_ & Ha & _ & _ & Hf & _ & Hs & _).
  simpl in Ha, Hf, Hs. unfold missionLander in H.
  destruct (paramAltitude _) as [a | | |]; try discriminate.
  destruct (paramVelocity _) as [v | | |]; try discriminate.
  destruct (paramFuel _) as [f | | |]; try discriminate.
  destruct (paramSafeSpeed _) as [s | | |]; try discriminate.
  injection H as <-. simpl in Ha, Hf, Hs.
  unfold Qltb in Ha, Hf. rewrite negb_false_iff in Ha, Hf.
  apply Qle_bool_iff in Ha, Hf. apply Qleb_false in Hs.
  repeat apply conj; try assumption; try reflexivity.
  now apply reach_new.
Qed.

Lemma mission_start_state_witness :
  let l := newLunarLander 0 500 (-20) 1200 5 in
  missionLander 0
    (fst (getInitialParameters
            (code_units "500", code_units "-20", code_units "-7",
             code_units "fast"))) = Some l /\
  reachable l.
Proof.
  intros l.
  assert (H : missionLander 0
    (fst (getInitialParameters
            (code_units "500", code_units "-20", code_units "-7",
             code_units "fast"))) = Some l) by (vm_compute; reflexivity).
  split; [exact H|].
  apply (mission_start_state 0 _ _ _ _ l H).
Defined.

(** * Properties of the simulation loop *)

Lemma elapsed_nonneg (now : Z) (l : LunarLander) :
  (lastUpdateTime l <= now)%Z -> 0 <= elapsed now l.
Proof.
  intros H. unfold elapsed, div64, sub64. apply round64_nonneg.
  apply Qle_shift_div_l; [reflexivity|].
  rewrite Qmult_0_l. apply round64_nonneg.
  rewrite Zle_Qle in H. lra.
Qed.

Lemma stopAndReport_state (s : Simulation) :
  reachable (lander (mission s)) ->
  safeSpeed s = safeLandingSpeed (lander (mission s)) ->
  ~ In FuelEmptyWarning (screen s) ->
  simulationState (stopAndReport s).
Proof.
  intros Hr Hs Hw. unfold simulationState, stopAndReport. simpl.
  repeat apply conj; try assumption; try reflexivity.
  - rewrite in_app_iff. intros [H | [H | []]]; [now apply Hw | discriminate].
  - now exists (screen s).
Qed.

Lemma startSimulation_state (now : Z) (l : LunarLander) :
  reachable l -> outcome l = InFlight -> simulationState (startSimulation now l).
Proof.
  intros Hr Ho. unfold simulationState, startSimulation. simpl.
  repeat apply conj; try reflexivity.
  - now apply reach_clock.
  - intros [H | [H | []]]; discriminate.
  - exact Ho.
Qed.

Lemma handleAnswer_reachable (answer : jsstring) (m : Mission) :
  reachable (lander m) -> reachable (lander (handleAnswer answer m)).
Proof.
  intros Hr. unfold handleAnswer.
  destruct (negb (gameRunning m) || rlClosed m); [assumption|].
  destruct (parseInt answer (Some 10%Z)); simpl.
  - now apply reach_setThrust.
  - now destruct (trim answer).
Qed.

Lemma react_state (e : Event) (s : Simulation) :
  simulationState s ->
  match e with
  | Tick now => (lastUpdateTime (lander (mission s)) <= now)%Z
  | _ => True
  end ->
  simulationState (react s e).
Proof.
  intros (Hr & Hs & Hw & Hrun) Hclock.
  destruct (exitCode s) as [code|] eqn:Ex.
  - (* over: nothing reacts *)
    destruct Hrun as (Hc & Hg & Hcl & Hi & Hrep).
    assert (Hsame : react s e = s).
    { destruct e; simpl.
      - unfold onInterval. now rewrite Hi.
      - unfold onAnswer. now rewrite Ex.
      - unfold handleInterrupt. now rewrite Hg. }
    rewrite Hsame. unfold simulationState. rewrite Ex. now repeat split.
  - destruct Hrun as (Hg & Hcl & Hi & Ho).
    destruct e as [now | answer |]; simpl.
    + (* the timer fires *)
      unfold onInterval. rewrite Hi, Ex, Hg. simpl.
      set (l := updatePhysics now (lander (mission s))).
      assert (Hrl : reachable l)
        by (apply reach_updatePhysics; [assumption | now apply elapsed_nonneg]).
      assert (Hquiet : outOfFuel l && Qgtb (thrust l) 0 = false).
      { destruct (outOfFuel l) eqn:Eo; [|reflexivity]. simpl.
        pose proof (reachable_wellFormed l Hrl) as Hwf.
        rewrite (reachable_no_fuel_no_thrust l Hrl (wf_outOfFuel l Hwf Eo)).
        reflexivity. }
      rewrite Hquiet.
      assert (Hsafe : safeLandingSpeed l = safeLandingSpeed (lander (mission s))).
      { unfold l, updatePhysics.
        destruct (landed _ || crashed _); [reflexivity|]. unfold physicsStep.
        destruct (touchdown_fuel (flightStep (elapsed now (lander (mission s)))
                    (set_lastUpdateTime now (lander (mission s)))))
          as (_ & _ & -> & _).
        now destruct (flightStep_frame (elapsed now (lander (mission s)))
                    (set_lastUpdateTime now (lander (mission s))))
          as (_ & _ & _ & -> & _). }
      assert (Hshown : ~ In FuelEmptyWarning
                         (screen s ++ [ScreenCleared; StatusShown l])).
      { rewrite in_app_iff. intros [H | [H | [H | []]]];
          [now apply Hw | discriminate | discriminate]. }
      destruct (landed l || crashed l) eqn:Eterm.
      * apply stopAndReport_state; simpl; try assumption. congruence.
      * unfold simulationState. simpl.
        repeat apply conj; try assumption; try congruence.
        now apply outcome_InFlight.
    + (* an answer arrives *)
      unfold onAnswer. rewrite Ex. unfold simulationState. simpl.
      destruct (handleAnswer_flags answer (mission s)) as [Hg' Hcl'].
      pose proof (handleAnswer_lander answer (mission s)) as Hl.
      repeat apply conj; try assumption; try congruence.
      * now apply handleAnswer_reachable.
      * rewrite Hl. simpl. exact Hs.
      * rewrite Hl. unfold outcome in *. simpl. exact Ho.
    + (* the pilot interrupts *)
      unfold handleInterrupt. rewrite Hg. simpl.
      apply stopAndReport_state; simpl; try assumption.
      rewrite in_app_iff. intros [H | [H | []]]; [now apply Hw | discriminate].
Qed.

Lemma simulate_state (events : list Event) :
  forall s, simulationState s -> clockOrdered events s ->
            simulationState (simulate events s).
Proof.
  induction events as [|e rest IH]; intros s Hs Hclock; simpl; [assumption|].
  destruct Hclock as [He Hrest].
  apply IH; [|assumption]. now apply react_state.
Qed.

Lemma react_over (e : Event) (s : Simulation) :
  gameRunning (mission s) = false -> intervalRunning s = false ->
  exitCode s <> None -> react s e = s.
Proof.
  intros Hg Hi Hx. destruct e; simpl.
  - unfold onInterval. now rewrite Hi.
  - unfold onAnswer. now destruct (exitCode s).
  - unfold handleInterrupt. now rewrite Hg.
Qed.

Lemma simulate_over (events : list Event) (s : Simulation) :
  gameRunning (mission s) = false -> intervalRunning s = false ->
  exitCode s <> None -> simulate events s = s.
Proof.
  intros Hg Hi Hx. induction events as [|e rest IH]; simpl; [reflexivity|].
  now rewrite react_over.
Qed.

(** X18.  The "FUEL EMPTY! Thrust ineffective." warning of the timer
    callback is never displayed: in a simulation started from a mission
    state in flight, whatever ticks (with a clock that does not run
    backwards), answers and interrupts follow, [outOfFuel] never holds
    together with a positive thrust after [updatePhysics]. *)
Theorem fuel_empty_warning_never_shown
    (now : Z) (l : LunarLander) (events : list Event) :
  reachable l -> outcome l = InFlight ->
  clockOrdered events (startSimulation now l) ->
  ~ In FuelEmptyWarning (screen (simulate events (startSimulation now l))).
Proof.
  intros Hr Ho Hclock.
  now destruct (simulate_state events (startSimulation now l)
                  (startSimulation_state now l Hr Ho) Hclock)
    as (_ & _ & Hw & _).
Qed.

(** Fuel 5 at full thrust: the fuel runs out in the first tick; the pilot
    then asks for thrust 80 and the timer fires twice more. *)
Lemma fuel_empty_warning_never_shown_witness :
  let l := setThrust 100 (newLunarLander 0 1000 50 5 5) in
  let events := [Tick 1000; Answer (code_units "80"); Tick 2000; Tick 3000] in
  reachable l /\ outcome l = InFlight /\
  clockOrdered events (startSimulation 0 l) /\
  outOfFuel (lander (mission (simulate events (startSimulation 0 l)))) = true /\
  ~ In FuelEmptyWarning (screen (simulate events (startSimulation 0 l))).
Proof.
  intros l events.
  assert (Hr : reachable l).
  { apply reach_setThrust, reach_new; vm_compute; (reflexivity || discriminate). }
  assert (Ho : outcome l = InFlight) by reflexivity.
  assert (Hc : clockOrdered events (startSimulation 0 l)).
  { vm_compute. repeat apply conj; (exact I || discriminate). }
  assert (Hout : outOfFuel (lander (mission (simulate events (startSimulation 0 l))))
                 = true) by (vm_compute; reflexivity).
  refine (conj Hr (conj Ho (conj Hc (conj Hout _)))).
  apply (fuel_empty_warning_never_shown 0 l events Hr Ho Hc).
Defined.

(** X19.  A simulation started from a mission state in flight is, after
    any ticks, answers and interrupts, either running -- [gameRunning] set,
    input open, timer running, lander in flight -- or over: exit code 0,
    [gameRunning] clear, input closed, timer stopped, and the final report
    of the lander as it then is was the last thing displayed.  So a landed
    or crashed lander always ends the simulation. *)
Theorem simulation_running_or_over
    (now : Z) (l : LunarLander) (events : list Event) :
  reachable l -> outcome l = InFlight ->
  clockOrdered events (startSimulation now l) ->
  let s := simulate events (startSimulation now l) in
  match exitCode s with
  | None =>
      gameRunning (mission s) = true /\ rlClosed (mission s) = false /\
      intervalRunning s = true /\ outcome (lander (mission s)) = InFlight
  | Some code =>
      code = 0%Z /\
      gameRunning (mission s) = false /\ rlClosed (mission s) = true /\
      intervalRunning s = false /\
      exists earlier,
        screen s =
        earlier ++ [FinalReport (displayFinalReport (lander (mission s))
                                   (safeLandingSpeed l))]
  end.
Proof.
  intros Hr Ho Hclock s.
  destruct (simulate_state events (startSimulation now l)
              (startSimulation_state now l Hr Ho) Hclock)
    as (_ & Hs & _ & Hrun).
  fold s in Hs, Hrun.
  assert (Hsafe : forall evs s0, safeSpeed (simulate evs s0) = safeSpeed s0).
  { induction evs as [|e evs IH]; intros s0; [reflexivity|]. simpl.
    rewrite IH. destruct e; simpl.
    - unfold onInterval. destruct (intervalRunning s0); [|reflexivity]. simpl.
      destruct (exitCode s0); [reflexivity|].
      destruct (gameRunning (mission s0)); [|reflexivity]. simpl.
      now destruct (landed _ || crashed _).
    - unfold onAnswer. now destruct (exitCode s0).
    - unfold handleInterrupt. now destruct (gameRunning (mission s0)). }
  assert (Hl : safeSpeed s = safeLandingSpeed l) by (unfold s; now rewrite Hsafe).
  destruct (exitCode s); [|assumption]. now rewrite <- Hl.
Qed.

(** Altitude 10 at 50 m/s without fuel: the first tick crashes the lander
    and ends the simulation. *)
Lemma simulation_running_or_over_witness :
  let l := newLunarLander 0 10 50 0 5 in
  let s := simulate [Tick 1000] (startSimulation 0 l) in
  reachable l /\ outcome l = InFlight /\
  clockOrdered [Tick 1000] (startSimulation 0 l) /\
  exitCode s = Some 0%Z /\ gameRunning (mission s) = false.
Proof.
  intros l s.
  assert (Hr : reachable l)
    by (apply reach_new; vm_compute; (reflexivity || discriminate)).
  assert (Ho : outcome l = InFlight) by reflexivity.
  assert (Hc : clockOrdered [Tick 1000] (startSimulation 0 l)).
  { vm_compute. repeat apply conj; (exact I || discriminate). }
  assert (Hx : exitCode s = Some 0%Z) by (vm_compute; reflexivity).
  pose proof (simulation_running_or_over 0 l [Tick 1000] Hr Ho Hc) as H.
  cbv zeta in H. fold s in H. rewrite Hx in H.
  destruct H as (_ & Hg & _).
  exact (conj Hr (conj Ho (conj Hc (conj Hx Hg)))).
Defined.

(** X20.  An interrupt ends a running simulation with exit code 0, and
    the simulation it leaves is final: whatever ticks, answers and further
    interrupts are delivered afterwards, nothing changes any more -- no
    physics update, no thrust change, no output. *)
Theorem interrupt_is_final
    (now : Z) (l : LunarLander) (before after : list Event) :
  reachable l -> outcome l = InFlight ->
  clockOrdered before (startSimulation now l) ->
  let s := simulate (before ++ [Interrupt]) (startSimulation now l) in
  exitCode s = Some 0%Z /\
  simulate (before ++ Interrupt :: after) (startSimulation now l) = s.
Proof.
  intros Hr Ho Hclock s.
  pose proof (simulate_state before (startSimulation now l)
                (startSimulation_state now l Hr Ho) Hclock) as Hb.
  pose proof (react_state Interrupt _ Hb I) as Hi.
  assert (Hs : s = react (simulate before (startSimulation now l)) Interrupt).
  { unfold s, simulate. now rewrite fold_left_app. }
  assert (Hover : exitCode s = Some 0%Z /\ gameRunning (mission s) = false /\
                  intervalRunning s = false).
  { rewrite Hs. destruct Hb as (_ & _ & _ & Hrun). simpl. unfold handleInterrupt.
    destruct (exitCode (simulate before (startSimulation now l))) eqn:Ex.
    - destruct Hrun as (-> & Hg & _ & Hiv & _). rewrite Hg. simpl.
      now rewrite Ex.
    - destruct Hrun as (Hg & _). rewrite Hg. simpl. now repeat split. }
  destruct Hover as (Hx & Hg & Hiv). split; [assumption|].
  change (before ++ Interrupt :: after) with (before ++ [Interrupt] ++ after).
  rewrite app_assoc. unfold simulate at 1. rewrite fold_left_app.
  fold (simulate (before ++ [Interrupt]) (startSimulation now l)). fold s.
  apply simulate_over; try assumption. rewrite Hx. discriminate.
Qed.

Lemma interrupt_is_final_witness :
  let l := newLunarLander 0 1000 50 1200 5 in
  let before := [Tick 1000; Answer (code_units "60"); Tick 2000] in
  let s := simulate (before ++ [Interrupt]) (startSimulation 0 l) in
  reachable l /\ outcome l = InFlight /\
  clockOrdered before (startSimulation 0 l) /\
  outcome (lander (mission s)) = InFlight /\
  simulate (before ++ Interrupt :: [Tick 3000; Answer (code_units "0"); Interrupt])
    (startSimulation 0 l) = s.
Proof.
  intros l before s.
  assert (Hr : reachable l)
    by (apply reach_new; vm_compute; (reflexivity || discriminate)).
  assert (Ho : outcome l = InFlight) by reflexivity.
  assert (Hc : clockOrdered before (startSimulation 0 l)).
  { vm_compute. repeat apply conj; (exact I || discriminate). }
  destruct (interrupt_is_final 0 l before
              [Tick 3000; Answer (code_units "0"); Interrupt] Hr Ho Hc)
    as [_ H].
  assert (Hfl : outcome (lander (mission s)) = InFlight)
    by (vm_compute; reflexivity).
  exact (conj Hr (conj Ho (conj Hc (conj Hfl H)))).
Defined.

(** X21.  The final report of a mission state says what happened: a
    "successful landing" report is shown exactly for a landed lander and
    its final velocity is the recorded impact velocity, at most the limit;
    a "crash" report is shown exactly for a crashed lander and its final
    velocity is the recorded impact velocity, above the limit; otherwise
    the lander is still in flight and the report shows its current
    velocity. *)
Theorem final_report_consistent (l : LunarLander) :
  reachable l ->
  let r := displayFinalReport l (safeLandingSpeed l) in
  match verdict r with
  | SuccessfulLanding =>
      outcome l = Landed /\ impactVelocity l = Some (finalVelocity r) /\
      finalVelocity r <= reportLimit r
  | CrashExceededLimit =>
      outcome l = Crashed /\ impactVelocity l = Some (finalVelocity r) /\
      reportLimit r < finalVelocity r
  | EndedBeforeLanding =>
      outcome l = InFlight /\ finalVelocity r = velocity l
  end.
Proof.
  intros Hr. simpl.
  destruct (reachable_touchdown_record l Hr) as [H1 H2].
  unfold outcome in *.
  destruct (landed l) eqn:El.
  - destruct H2 as (_ & _ & _ & iv & Hiv & HL & _); [discriminate|].
    rewrite Hiv. repeat apply conj; try reflexivity. now apply HL.
  - destruct (crashed l) eqn:Ec.
    + destruct H2 as (_ & _ & _ & iv & Hiv & _ & HC); [discriminate|].
      rewrite Hiv. repeat apply conj; try reflexivity. now apply HC.
    + rewrite (H1 eq_refl). now split.
Qed.

Lemma final_report_consistent_witness :
  let l := updatePhysics 1000 (newLunarLander 0 1 3.375 0 5) in
  let r := displayFinalReport l (safeLandingSpeed l) in
  reachable l /\ verdict r = SuccessfulLanding /\
  velocity l = 0 /\ finalVelocity r <= reportLimit r /\
  finalVelocityDirection r = DOWN.
Proof.
  intros l r.
  assert (Hr : reachable l).
  { apply reach_updatePhysics; [apply reach_new|];
      vm_compute; (reflexivity || discriminate). }
  assert (Hv : verdict r = SuccessfulLanding) by (vm_compute; reflexivity).
  assert (Hz : velocity l = 0) by (vm_compute; reflexivity).
  assert (Hd : finalVelocityDirection r = DOWN) by (vm_compute; reflexivity).
  pose proof (final_report_consistent l Hr) as H.
  cbv zeta in H. fold r in H. rewrite Hv in H.
  destruct H as (_ & _ & Hle).
  exact (conj Hr (conj Hv (conj Hz (conj Hle Hd)))).
Defined.

(** * Properties of the first version of the game *)

Lemma legacy_parsedInput_range (input : option jsstring) :
  0 <= Legacy.parsedInput input /\ Legacy.parsedInput input <= 100.
Proof.
  unfold Legacy.parsedInput. split.
  - apply Q.min_glb; [lra | apply Q.le_max_l].
  - apply Q.le_min_l.
Qed.


(** X22.  In the turn-based game the thrust used for a turn is always
    within 0..100, whatever is typed (or when [prompt] returns [null]), and
    it is 0 whenever the input does not start with a number. *)
Theorem legacy_thrust_input (input : option jsstring) :
  0 <= Legacy.parsedInput input /\ Legacy.parsedInput input <= 100 /\
  (parseInt (match input with
             | Some s => s
             | None => code_units "null"
             end) None = None ->
   Legacy.parsedInput input = 0).
Proof.
  destruct (legacy_parsedInput_range input) as [H0 H1].
  repeat apply conj; try assumption.
  unfold Legacy.parsedInput. intros ->. reflexivity.
Qed.








(** X26.  The turn-based game stops at contact: once a turn has set
    [gameOver], the inputs that follow are never read -- the lander, the
    flag and the output are those of the inputs up to that turn. *)
Theorem legacy_game_stops
    (before after : list (option jsstring)) (l : Legacy.LunarLander) :
  snd (fst (LegacyGame.moonLanding before l)) = true ->
  LegacyGame.moonLanding (before ++ after) l = LegacyGame.moonLanding before l.
Proof.
  revert l. induction before as [|input rest IH]; intros l H.
  - simpl in H. discriminate.
  - simpl in *. destruct (Legacy.turn input l) as [[l1 over1] printed1].
    destruct over1; [reflexivity|].
    specialize (IH l1).
    destruct (LegacyGame.moonLanding rest l1) as [[l2 over2] printed2].
    simpl in H. rewrite IH by assumption. reflexivity.
Qed.

Lemma legacy_game_stops_witness :
  let l := Legacy.mkLunarLander 100 50 1200 0 1.625 false in
  let before := [Some (code_units "0"); Some (code_units "0")] in
  snd (fst (LegacyGame.moonLanding before l)) = true /\
  LegacyGame.moonLanding (before ++ [Some (code_units "100"); None]) l
  = LegacyGame.moonLanding before l.
Proof.
  intros l before.
  assert (H : snd (fst (LegacyGame.moonLanding before l)) = true)
    by (vm_compute; reflexivity).
  split; [exact H|].
  apply (legacy_game_stops before _ l H).
Defined.
